(** * The ACA-Py upgrade command and the Linked-Data proof engine

    Part I embeds [aries_cloudagent/commands/upgrade.py]: the Python
    primitives it relies on ([str.split], [int], [sorted], [list.index],
    slicing), the exceptions it raises and catches, the storage it reads and
    writes, and the [upgrade] coroutine itself as a computation in a state and
    exception monad.

    Part II models the sign/verify orchestrator of the Linked-Data proof
    engine, whose callers are the tests of
    [vc/ld_proofs/suites/tests/test_ed25519_signature_2020.py]. *)

From stdpp Require Import base strings list gmap sorting.
From Stdlib Require Import ZArith Lia Ascii String.

Open Scope string_scope.
Open Scope Z_scope.

(** ** Python primitives *)

(** A Python [str] is the sequence of its code points.  A [string] here is a
    sequence of characters below 256, each of them one code point: the
    primitives below are those of Python on the [str] values whose code points
    are all below 256. *)

Module Py.

(** Exception classes.  [BaseError] is the root of the agent's own errors
    ([..config.base]); the others are Python built-ins. *)
Inductive ExcClass :=
  | BaseError
  | UpgradeError
  | StorageError
  | StorageNotFoundError
  | StorageDuplicateError
  | ClassNotFoundError
  | ModuleLoadError
  | ValueError
  | IndexError
  | TypeError
  | OtherException.

#[global] Instance ExcClass_eq_dec : EqDecision ExcClass.
Proof. solve_decision. Defined.

(** [isinstance(e, BaseError)]: [UpgradeError(BaseError)], the storage errors
    and the class loader errors derive from [BaseError]. *)
Definition is_BaseError (c : ExcClass) : bool :=
  match c with
  | BaseError | UpgradeError | StorageError | StorageNotFoundError
  | StorageDuplicateError | ClassNotFoundError | ModuleLoadError => true
  | ValueError | IndexError | TypeError | OtherException => false
  end.

Record Exc := mkExc { exc_class : ExcClass; exc_msg : string }.

#[global] Instance Exc_eq_dec : EqDecision Exc.
Proof. solve_decision. Defined.

(** [s.split(sep)] for a one-character separator: every occurrence splits,
    and the result is never empty. *)
Fixpoint split (sep : ascii) (s : string) : list string :=
  match s with
  | EmptyString => [EmptyString]
  | String c s' =>
      if decide (c = sep) then EmptyString :: split sep s'
      else match split sep s' with
           | hd :: tl => String c hd :: tl
           | [] => [String c EmptyString]
           end
  end.

(** [s[1:]]: the string without its first code point. *)
Definition tail (s : string) : string :=
  match s with
  | EmptyString => EmptyString
  | String _ s' => s'
  end.

(** The decimal digits [int] reads.  Below 256 these are ["0"] to ["9"]
    only: the superscripts and fractions of Latin-1 are no decimal digits. *)
Definition digit (c : ascii) : option Z :=
  let n := Z.of_nat (nat_of_ascii c) in
  if (48 <=? n) && (n <=? 57) then Some (n - 48) else None.

(** The characters [int] strips.  Below 256 these are tab, line feed,
    vertical tab, form feed, carriage return and the space, and of Latin-1
    the next line (133) and the no-break space (160).  The separators 28 to
    31, which [str.strip] removes, are not among them. *)
Definition is_space (c : ascii) : bool :=
  let n := Z.of_nat (nat_of_ascii c) in
  ((9 <=? n) && (n <=? 13)) || (n =? 32) || (n =? 133) || (n =? 160).

Fixpoint lstrip (s : string) : string :=
  match s with
  | String c s' => if is_space c then lstrip s' else s
  | EmptyString => EmptyString
  end.

Definition strip (s : string) : string :=
  String.rev (lstrip (String.rev (lstrip s))).

(** Decimal digits, where single underscores may separate digits.
    [prev] tells whether the previous character was a digit. *)
Fixpoint digits (acc : Z) (prev : bool) (s : string) : option Z :=
  match s with
  | EmptyString => if prev then Some acc else None
  | String c s' =>
      if decide (c = "_"%char) then
        if prev then digits acc false s' else None
      else
        match digit c with
        | Some d => digits (10 * acc + d) true s'
        | None => None
        end
  end.

(** [int(s)], base 10: surrounding whitespace, one optional sign, digits.
    [None] stands for [ValueError].  No bound on the number of digits is
    modelled. *)
Definition int_opt (s : string) : option Z :=
  match strip s with
  | String "+" r => digits 0 false r
  | String "-" r => Z.opp <$> digits 0 false r
  | r => digits 0 false r
  end.

Definition int (s : string) : Exc + Z :=
  match int_opt s with
  | Some z => inr z
  | None =>
      inl (mkExc ValueError
             ("invalid literal for int() with base 10: '" +:+ s +:+ "'"))
  end.

(** [l[i]] for a non-negative constant index. *)
Definition getitem {A} (l : list A) (i : nat) : Exc + A :=
  match l !! i with
  | Some a => inr a
  | None => inl (mkExc IndexError "list index out of range")
  end.

(** [l.index(x)]: the first position of [x]. *)
Fixpoint index_opt `{EqDecision A} (x : A) (l : list A) : option Z :=
  match l with
  | [] => None
  | y :: l' => if decide (y = x) then Some 0 else Z.succ <$> index_opt x l'
  end.

Definition index (x : string) (l : list string) : Exc + Z :=
  match index_opt x l with
  | Some i => inr i
  | None => inl (mkExc ValueError ("'" +:+ x +:+ "' is not in list"))
  end.

(** [l[i:]]: a negative start counts from the end, and is clamped at the
    beginning of the list. *)
Definition slice_from {A} (l : list A) (i : Z) : list A :=
  if i <? 0 then drop (Z.to_nat (Z.max 0 (Z.of_nat (List.length l) + i))) l
  else drop (Z.to_nat i) l.

(** Lexicographic [<] on 3-tuples of integers. *)
Definition tuple3_lt (a b : Z * Z * Z) : bool :=
  let '(a1, a2, a3) := a in
  let '(b1, b2, b3) := b in
  (a1 <? b1) || ((a1 =? b1) && ((a2 <? b2) || ((a2 =? b2) && (a3 <? b3)))).

(** [sorted(l, key=...)] on already computed keys.  Python's sort is stable
    and compares with [<] only: an element is placed before the first element
    of the sorted rest that is not smaller than it. *)
Fixpoint insert_by_key {A} (x : (Z * Z * Z) * A) (l : list ((Z * Z * Z) * A))
  : list ((Z * Z * Z) * A) :=
  match l with
  | [] => [x]
  | y :: l' => if tuple3_lt y.1 x.1 then y :: insert_by_key x l' else x :: l
  end.

Definition sort_by_key {A} (l : list ((Z * Z * Z) * A)) : list ((Z * Z * Z) * A) :=
  foldr insert_by_key [] l.

(** [a <= b] on keys: [b] is not smaller than [a]. *)
Definition key_le {A} (x y : (Z * Z * Z) * A) : Prop := tuple3_lt y.1 x.1 = false.

(** The strings of ASCII characters, code points below 128. *)
Fixpoint is_ascii (s : string) : bool :=
  match s with
  | EmptyString => true
  | String c s' => (Z.of_nat (nat_of_ascii c) <? 128) && is_ascii s'
  end.

(** A decimal numeral: digits only, and at least one. *)
Fixpoint all_digits (s : string) : bool :=
  match s with
  | EmptyString => true
  | String c s' => bool_decide (is_Some (digit c)) && all_digits s'
  end.

Definition numeral (s : string) : Prop := s ≠ EmptyString ∧ all_digits s = true.

(** The number a numeral writes, most significant digit first, after the
    digits already read as [acc]. *)
Fixpoint numeral_value (acc : Z) (s : string) : Z :=
  match s with
  | EmptyString => acc
  | String c s' => numeral_value (10 * acc + default 0 (digit c)) s'
  end.

End Py.

(** ** Exceptions as values, and the monad of the coroutine *)

(** Pure computations that may raise: [Exc + A]. *)
Definition exc_bind {A B} (m : Py.Exc + A) (k : A → Py.Exc + B) : Py.Exc + B :=
  match m with
  | inl e => inl e
  | inr a => k a
  end.

Fixpoint exc_map {A B} (f : A → Py.Exc + B) (l : list A) : Py.Exc + list B :=
  match l with
  | [] => inr []
  | x :: l' =>
      exc_bind (f x) (λ y, exc_bind (exc_map f l') (λ ys, inr (y :: ys)))
  end.

(** ** Storage *)

Module Storage.

(** [StorageRecord(type, value, tags, id)] of [..storage.record]. *)
Record StorageRecord := mkStorageRecord {
  sr_type : string;
  sr_value : string;
  sr_tags : gmap string string;
  sr_id : string;
}.

(** What the store keeps under a record id. *)
Record Row := mkRow {
  row_type : string;
  row_value : string;
  row_tags : gmap string string;
}.

Definition to_record (id : string) (row : Row) : StorageRecord :=
  mkStorageRecord (row_type row) (row_value row) (row_tags row) id.

Definition to_row (r : StorageRecord) : Row :=
  mkRow (sr_type r) (sr_value r) (sr_tags r).

(** Modelled from the spec: the storage layer ([BaseStorage] of
    [..storage.base]) is an external collaborator whose code is not part of the
    sources; the spec only says that it holds the "single stored
    schema-version marker".  The store is a dictionary from record ids to
    what is stored under them, and the three operations [upgrade] calls
    behave as the in-memory storage of the agent does: [find_record] returns
    the one record of a type and raises [StorageNotFoundError] when there is
    none and [StorageDuplicateError] when there are several; [add_record]
    refuses an id that is taken; [update_record] replaces value and tags of
    what is stored under the id of the record and raises
    [StorageNotFoundError] when it is gone. *)
Definition of_type (type_filter : string) (s : gmap string Row)
  : gmap string Row :=
  filter (λ kv, row_type kv.2 = type_filter) s.

(** Modelled from the spec: [BaseStorage.find_record] with an empty tag
    query, the one record of the type or an error. *)
Definition find_record (type_filter : string) (s : gmap string Row)
  : Py.Exc + StorageRecord :=
  match map_to_list (of_type type_filter s) with
  | [] => inl (Py.mkExc Py.StorageNotFoundError "Record not found")
  | [(id, row)] => inr (to_record id row)
  | _ => inl (Py.mkExc Py.StorageDuplicateError "Duplicate records found")
  end.

(** Modelled from the spec: [BaseStorage.add_record], which refuses an id
    that is taken. *)
Definition add_record (r : StorageRecord) (s : gmap string Row)
  : (Py.Exc + unit) * gmap string Row :=
  match s !! sr_id r with
  | Some _ => (inl (Py.mkExc Py.StorageDuplicateError "Duplicate record"), s)
  | None => (inr (), <[sr_id r := to_row r]> s)
  end.

(** Modelled from the spec: [BaseStorage.update_record], which replaces
    value and tags of what is stored under the id of the record. *)
Definition update_record (r : StorageRecord) (value : string)
    (tags : gmap string string) (s : gmap string Row)
  : (Py.Exc + unit) * gmap string Row :=
  match s !! sr_id r with
  | None => (inl (Py.mkExc Py.StorageNotFoundError "Record not found"), s)
  | Some oldrec => (inr (), <[sr_id r := mkRow (row_type oldrec) value tags]> s)
  end.

End Storage.

(** ** The upgrade command *)

Module Upgrade.

Import Storage.

(** An operation of a collaborator on the store of the root profile: it
    returns or raises, and leaves a store behind either way. *)
Definition StoreOp (A : Type) : Type :=
  gmap string Row → (Py.Exc + A) * gmap string Row.

(** A callable of the registry: its [__name__] and what awaiting it on the
    root profile does. *)
Record Callable := mkCallable {
  fn_name : string;
  fn_run : StoreOp unit;
}.

(** What [upgrade] imports and does not define: the version constants of
    [..version], the class loader, the record classes ([BaseRecord.query],
    [BaseRecord.save]) and the id a new [StorageRecord] draws. *)
Class World := {
  version : string;
  RECORD_TYPE_ACAPY_VERSION : string;
  PyClass : Type;
  class_str : PyClass → string;
  issubclass_BaseRecord : PyClass → bool;
  load_class : string → Py.Exc + PyClass;
  RecordObj : Type;
  query : PyClass → gmap string Row → Py.Exc + list RecordObj;
  save : RecordObj → StoreOp unit;
  new_record_id : string;
}.

(** One entry of the settings' ["upgrade.config"]: the optional keys
    ["resave_records"] and ["update_existing_records"]. *)
Record UpgradeConfig := mkUpgradeConfig {
  cfg_resave_records : option (list string);
  cfg_update_existing_records : option bool;
}.

(** The settings [upgrade] reads: ["upgrade.from_version"] and
    ["upgrade.config"], the latter with its keys in insertion order. *)
Record Settings := mkSettings {
  setting_from_version : option string;
  setting_config : option (list (string * UpgradeConfig));
}.

(** [d.get(k)] and [k in d] on a dictionary kept as its list of items. *)
Fixpoint dict_get {V} (k : string) (d : list (string * V)) : option V :=
  match d with
  | [] => None
  | (k', v) :: d' => if decide (k' = k) then Some v else dict_get k d'
  end.

Definition dict_contains {V} (k : string) (d : list (string * V)) : bool :=
  bool_decide (is_Some (dict_get k d)).

(** *** VersionUpgradeConfig *)

(** One entry of the registry: the key ["update_existing_function_inst"],
    when present. *)
Record RegistryEntry := mkRegistryEntry {
  update_existing_function_inst : option Callable;
}.

Record VersionUpgradeConfig := mkVersionUpgradeConfig {
  config : gmap string RegistryEntry;
}.

(** [setup_config] gives every version an entry of its own and copies the
    one key it knows. *)
Definition setup_config (self : VersionUpgradeConfig)
    (config_dict : gmap string RegistryEntry) : VersionUpgradeConfig :=
  mkVersionUpgradeConfig
    (((λ c, mkRegistryEntry (update_existing_function_inst c)) <$> config_dict)
       ∪ config self).

Definition VersionUpgradeConfig_init (config_dict : gmap string RegistryEntry)
  : VersionUpgradeConfig :=
  setup_config (mkVersionUpgradeConfig ∅) config_dict.

Definition get_update_existing_func (self : VersionUpgradeConfig) (ver : string)
  : option Callable :=
  match config self !! ver with
  | Some entry => update_existing_function_inst entry
  | None => None
  end.

(** [update_existing_records]: its body is [pass]. *)
Definition update_existing_records : Callable :=
  mkCallable "update_existing_records" (λ s, (inr (), s)).

(** [CONFIG_v7_3] *)
Definition CONFIG_v7_3 : gmap string RegistryEntry :=
  {[ "v0.7.2" := mkRegistryEntry (Some update_existing_records) ]}.

(** *** The sort key of the configured versions *)

(** [(lambda y: (int(y[0][1:]), int(y[1]), int(y[2])))(x.split("."))] *)
Definition version_key (x : string) : Py.Exc + (Z * Z * Z) :=
  let y := Py.split "." x in
  exc_bind (Py.getitem y 0) (λ y0,
  exc_bind (Py.int (Py.tail y0)) (λ major,
  exc_bind (Py.getitem y 1) (λ y1,
  exc_bind (Py.int y1) (λ minor,
  exc_bind (Py.getitem y 2) (λ y2,
  exc_bind (Py.int y2) (λ patch,
  inr (major, minor, patch))))))).

(** [sorted(versions, key=...)]: all keys are computed first, in list order,
    then the list is sorted on them. *)
Definition sorted_versions (versions : list string) : Py.Exc + list string :=
  exc_bind (exc_map version_key versions) (λ keys,
  inr ((Py.sort_by_key (zip keys versions)).*2)).

(** The versions the loop of [upgrade] iterates over. *)
Definition versions_to_process (upgrade_configs : list (string * UpgradeConfig))
    (upgrade_from_version : string) : Py.Exc + list string :=
  let versions_found_in_config := upgrade_configs.*1 in
  exc_bind (sorted_versions versions_found_in_config)
    (λ sorted_versions_found_in_config,
  exc_bind (Py.index upgrade_from_version sorted_versions_found_in_config)
    (λ i,
  let upgrade_from_version_index := i - 1 in
  inr (Py.slice_from sorted_versions_found_in_config upgrade_from_version_index))).

(** The loop as the specification words it: the configured versions at or
    after the version to upgrade from, in ascending (major, minor, patch)
    order. *)
Definition versions_at_or_after (upgrade_configs : list (string * UpgradeConfig))
    (upgrade_from_version : string) : Py.Exc + list string :=
  let versions_found_in_config := upgrade_configs.*1 in
  exc_bind (exc_map version_key versions_found_in_config) (λ keys,
  exc_bind (version_key upgrade_from_version) (λ from_key,
  inr (filter (λ kv, negb (Py.tuple3_lt kv.1 from_key))
         (Py.sort_by_key (zip keys versions_found_in_config))).*2)).

(** *** The coroutine *)

Section Coroutine.

Context `{W : World}.

(** What the run leaves behind besides the store: the lines printed, each
    call of [record.save] with the class the record was queried through, and
    each call of a registered callable. *)
Inductive Event :=
  | EvPrint (text : string)
  | EvSave (record_type : PyClass) (record : RecordObj)
  | EvCall (fn : string).

Record State := mkState {
  storage : gmap string Row;
  trace : list Event;
}.

(** A computation returns or raises, and the state survives a raise: the
    sessions of [upgrade] are not transactions. *)
Definition M (A : Type) : Type := State → (Py.Exc + A) * State.

#[global] Instance M_ret : MRet M := λ A a st, (inr a, st).

#[global] Instance M_bind : MBind M := λ A B k m st,
  match m st with
  | (inr a, st') => k a st'
  | (inl e, st') => (inl e, st')
  end.

Definition raise {A} (c : Py.ExcClass) (msg : string) : M A :=
  λ st, (inl (Py.mkExc c msg), st).

Definition lift_exc {A} (r : Py.Exc + A) : M A := λ st, (r, st).

Definition read_store {A} (f : gmap string Row → Py.Exc + A) : M A :=
  λ st, (f (storage st), st).

Definition lift_store {A} (op : StoreOp A) : M A :=
  λ st, let '(r, s') := op (storage st) in (r, mkState s' (trace st)).

Definition emit (e : Event) : M unit :=
  λ st, (inr (), mkState (storage st) (trace st ++ [e])).

Definition print (text : string) : M unit := emit (EvPrint text).

(** [try: body / except <matches> as e: handler e] *)
Definition try_except {A} (body : M A) (matches : Py.Exc → bool)
    (handler : Py.Exc → M A) : M A :=
  λ st,
    match body st with
    | (inl e, st') => if matches e then handler e st' else (inl e, st')
    | (inr a, st') => (inr a, st')
    end.

(** [for x in l: body x] *)
Fixpoint for_each {A} (l : list A) (body : A → M unit) : M unit :=
  match l with
  | [] => mret ()
  | x :: l' => body x;; for_each l' body
  end.

Definition isinstance (c : Py.ExcClass) (e : Py.Exc) : bool :=
  bool_decide (Py.exc_class e = c).

(** Lines 64-87: the stored version record, when there is one, and the
    version to upgrade from. *)
Definition resolve_from_version (settings : Settings)
  : M (option StorageRecord * string) :=
  try_except
    (version_storage_record ← read_store (find_record RECORD_TYPE_ACAPY_VERSION);
     let upgrade_from_version := sr_value version_storage_record in
     match setting_from_version settings with
     | Some _ =>
         print ("version " +:+ upgrade_from_version
                +:+ " found in storage, --from-version will be ignored.")
     | None => mret ()
     end;;
     mret (Some version_storage_record, upgrade_from_version))
    (isinstance Py.StorageNotFoundError)
    (λ _,
       match setting_from_version settings with
       | Some v => mret (None, v)
       | None =>
           raise Py.UpgradeError
             "ACA-Py version not found in storage and no --from-version specified."
       end).

(** Lines 117-136: one record path of ["resave_records"]. *)
Definition resave_record_path (record_path : string) : M unit :=
  record_type ←
    try_except (lift_exc (load_class record_path))
      (isinstance Py.ClassNotFoundError)
      (λ _, raise Py.UpgradeError ("Unknown Record type " +:+ record_path));
  if negb (issubclass_BaseRecord record_type) then
    raise Py.UpgradeError
      ("Only BaseRecord can be resaved, found: " +:+ class_str record_type)
  else
    all_records ← read_store (query record_type);
    for_each all_records
      (λ record, emit (EvSave record_type record);; lift_store (save record));;
    print ("All records of " +:+ class_str record_type
           +:+ " successfully re-saved.").

(** Lines 112-149: the body of the loop over the versions. *)
Definition upgrade_step (version_upgrade_config_inst : VersionUpgradeConfig)
    (upgrade_configs : list (string * UpgradeConfig))
    (upgrade_from_version from_version_config : string) : M unit :=
  match dict_get from_version_config upgrade_configs with
  | None => raise Py.TypeError "argument of type 'NoneType' is not iterable"
  | Some upgrade_config =>
      match cfg_resave_records upgrade_config with
      | Some resave_record_paths => for_each resave_record_paths resave_record_path
      | None => mret ()
      end;;
      match cfg_update_existing_records upgrade_config with
      | Some _ =>
          match get_update_existing_func version_upgrade_config_inst
                  upgrade_from_version with
          | None =>
              raise Py.UpgradeError
                ("No update_existing_records function specified for "
                 +:+ upgrade_from_version)
          | Some update_existing_recs_callable =>
              emit (EvCall (fn_name update_existing_recs_callable));;
              lift_store (fn_run update_existing_recs_callable)
          end
      | None => mret ()
      end
  end.

(** Lines 150-163: the stored version becomes the running one. *)
Definition update_storage_version (version_storage_record : option StorageRecord)
    (upgrade_to_version : string) : M unit :=
  match version_storage_record with
  | None =>
      lift_store
        (add_record
           (mkStorageRecord RECORD_TYPE_ACAPY_VERSION upgrade_to_version ∅
              new_record_id))
  | Some r => lift_store (update_record r upgrade_to_version ∅)
  end.

(** Lines 88-163, from the resolved version on. *)
Definition upgrade_from (version_upgrade_config_inst : VersionUpgradeConfig)
    (settings : Settings) (version_storage_record : option StorageRecord)
    (upgrade_from_version : string) : M unit :=
  let upgrade_to_version := "v" +:+ version in
  if decide (upgrade_from_version = upgrade_to_version) then
    raise Py.UpgradeError
      ("Version " +:+ upgrade_from_version
       +:+ " to upgrade from and current version to upgrade to "
       +:+ upgrade_to_version +:+ " are same.")
  else
    match setting_config settings with
    | None => raise Py.TypeError "argument of type 'NoneType' is not iterable"
    | Some upgrade_configs =>
        if negb (dict_contains upgrade_from_version upgrade_configs) then
          raise Py.UpgradeError
            ("No upgrade configuration found for " +:+ upgrade_from_version)
        else
          versions ←
            lift_exc (versions_to_process upgrade_configs upgrade_from_version);
          for_each versions
            (upgrade_step version_upgrade_config_inst upgrade_configs
               upgrade_from_version);;
          update_storage_version version_storage_record upgrade_to_version
    end.

(** Lines 62-163 in a run in which the wallet has been opened and every
    session opens and closes: the body of the [try] of [upgrade] from the
    lookup of the version record to the write of the marker, over a registry
    [config_dict].  The steps through the context builder, [wallet_config]
    and the root profile are those of [upgrade_coroutine] below. *)
Definition upgrade_body (config_dict : gmap string RegistryEntry)
    (settings : Settings) : M unit :=
  let version_upgrade_config_inst := VersionUpgradeConfig_init config_dict in
  resolved ← resolve_from_version settings;
  upgrade_from version_upgrade_config_inst settings resolved.1 resolved.2.

(** [except BaseError as e: raise UpgradeError(f"Error during upgrade: {e}")] *)
Definition upgrade_with (config_dict : gmap string RegistryEntry)
    (settings : Settings) : M unit :=
  try_except (upgrade_body config_dict settings)
    (λ e, Py.is_BaseError (Py.exc_class e))
    (λ e, raise Py.UpgradeError ("Error during upgrade: " +:+ Py.exc_msg e)).

(** [upgrade(settings)] in such a run: the registry is [CONFIG_v7_3]. *)
Definition upgrade (settings : Settings) : M unit :=
  upgrade_with CONFIG_v7_3 settings.

(** *** The coroutine with the context, the wallet and the profile *)

(** One [async with root_profile.session() as session:] block of a run: what
    [root_profile.session()] and entering it, [session.inject(BaseStorage)]
    and leaving it do, which is to return ([None]) or to raise. *)
Record Session := mkSession {
  session_enter : option Py.Exc;
  session_inject : option Py.Exc;
  session_exit : option Py.Exc;
}.

(** What one run meets outside the store: [DefaultContextBuilder(settings)]
    and [build_context()] of lines 59-60, [wallet_config(context)] of line
    63, which opens or creates the store and may write to it, the session of
    line 66, the sessions of line 127, one for each position in
    ["resave_records"] of each version, the session of line 151 and
    [root_profile.close()] of line 164.  Each of them returns or raises;
    the sessions are not transactions, and of these steps [wallet_config]
    is the one that may write records. *)
Record Lifecycle := mkLifecycle {
  build_context : option Py.Exc;
  wallet_config : StoreOp unit;
  lookup_session : Session;
  resave_session : string → nat → Session;
  write_session : Session;
  close : option Py.Exc;
}.

(** A step that returns or raises, and does nothing else. *)
Definition step (outcome : option Py.Exc) : M unit :=
  match outcome with
  | Some e => lift_exc (inl e)
  | None => mret ()
  end.

(** [async with root_profile.session() as session: body].  The body does not
    run when entering raises.  Leaving happens whether the body returns or
    raises, it does not swallow what the body raised, and what it raises
    itself takes the place of the outcome of the body. *)
Definition with_session {A} (session : Session) (body : M A) : M A :=
  let body_then_exit : M A :=
    λ st,
      let '(r, st') := body st in
      match session_exit session with
      | Some e => (inl e, st')
      | None => (r, st')
      end in
  step (session_enter session);; body_then_exit.

(** Lines 66-87. *)
Definition resolve_from_version_in (session : Session) (settings : Settings)
  : M (option StorageRecord * string) :=
  with_session session
    (step (session_inject session);;
     resolve_from_version settings).

(** Lines 117-136, with the session of line 127. *)
Definition resave_record_path_in (session : Session) (record_path : string)
  : M unit :=
  record_type ←
    try_except (lift_exc (load_class record_path))
      (isinstance Py.ClassNotFoundError)
      (λ _, raise Py.UpgradeError ("Unknown Record type " +:+ record_path));
  if negb (issubclass_BaseRecord record_type) then
    raise Py.UpgradeError
      ("Only BaseRecord can be resaved, found: " +:+ class_str record_type)
  else
    with_session session
      (all_records ← read_store (query record_type);
       for_each all_records
         (λ record, emit (EvSave record_type record);; lift_store (save record));;
       print ("All records of " +:+ class_str record_type
              +:+ " successfully re-saved.")).

(** Lines 112-149. *)
Definition upgrade_step_in (lifecycle : Lifecycle)
    (version_upgrade_config_inst : VersionUpgradeConfig)
    (upgrade_configs : list (string * UpgradeConfig))
    (upgrade_from_version from_version_config : string) : M unit :=
  match dict_get from_version_config upgrade_configs with
  | None => raise Py.TypeError "argument of type 'NoneType' is not iterable"
  | Some upgrade_config =>
      match cfg_resave_records upgrade_config with
      | Some resave_record_paths =>
          for_each (imap pair resave_record_paths)
            (λ numbered,
               resave_record_path_in
                 (resave_session lifecycle from_version_config numbered.1)
                 numbered.2)
      | None => mret ()
      end;;
      match cfg_update_existing_records upgrade_config with
      | Some _ =>
          match get_update_existing_func version_upgrade_config_inst
                  upgrade_from_version with
          | None =>
              raise Py.UpgradeError
                ("No update_existing_records function specified for "
                 +:+ upgrade_from_version)
          | Some update_existing_recs_callable =>
              emit (EvCall (fn_name update_existing_recs_callable));;
              lift_store (fn_run update_existing_recs_callable)
          end
      | None => mret ()
      end
  end.

(** Lines 88-163. *)
Definition upgrade_from_in (lifecycle : Lifecycle)
    (version_upgrade_config_inst : VersionUpgradeConfig)
    (settings : Settings) (version_storage_record : option StorageRecord)
    (upgrade_from_version : string) : M unit :=
  let upgrade_to_version := "v" +:+ version in
  if decide (upgrade_from_version = upgrade_to_version) then
    raise Py.UpgradeError
      ("Version " +:+ upgrade_from_version
       +:+ " to upgrade from and current version to upgrade to "
       +:+ upgrade_to_version +:+ " are same.")
  else
    match setting_config settings with
    | None => raise Py.TypeError "argument of type 'NoneType' is not iterable"
    | Some upgrade_configs =>
        if negb (dict_contains upgrade_from_version upgrade_configs) then
          raise Py.UpgradeError
            ("No upgrade configuration found for " +:+ upgrade_from_version)
        else
          versions ←
            lift_exc (versions_to_process upgrade_configs upgrade_from_version);
          for_each versions
            (upgrade_step_in lifecycle version_upgrade_config_inst upgrade_configs
               upgrade_from_version);;
          with_session (write_session lifecycle)
            (step (session_inject (write_session lifecycle));;
             update_storage_version version_storage_record upgrade_to_version)
    end.

(** Lines 62-164: the body of the [try]. *)
Definition upgrade_coroutine_body (lifecycle : Lifecycle)
    (config_dict : gmap string RegistryEntry) (settings : Settings) : M unit :=
  let version_upgrade_config_inst := VersionUpgradeConfig_init config_dict in
  lift_store (wallet_config lifecycle);;
  resolved ← resolve_from_version_in (lookup_session lifecycle) settings;
  upgrade_from_in lifecycle version_upgrade_config_inst settings
    resolved.1 resolved.2;;
  step (close lifecycle).

(** [upgrade(settings)], lines 57-166: the context is built before the
    [try], and what building it raises is not caught. *)
Definition upgrade_coroutine (lifecycle : Lifecycle) (settings : Settings)
  : M unit :=
  step (build_context lifecycle);;
  try_except (upgrade_coroutine_body lifecycle CONFIG_v7_3 settings)
    (λ e, Py.is_BaseError (Py.exc_class e))
    (λ e, raise Py.UpgradeError ("Error during upgrade: " +:+ Py.exc_msg e)).

(** The same run with another outcome of [root_profile.close()]. *)
Definition closing (lifecycle : Lifecycle) (outcome : option Py.Exc) : Lifecycle :=
  mkLifecycle (build_context lifecycle) (wallet_config lifecycle)
    (lookup_session lifecycle) (resave_session lifecycle)
    (write_session lifecycle) outcome.

(** The run in which nothing outside the store fails, on a wallet that is
    open. *)
Definition opened : Session := mkSession None None None.

Definition all_well : Lifecycle :=
  mkLifecycle None (λ s, (inr (), s)) opened (λ _ _, opened) opened None.

(** *** Conditions on states and computations *)

(** The state after resolving: the store as it was, and at most one more
    printed line. *)
Definition only_printed (st st' : State) : Prop :=
  storage st' = storage st ∧
  (trace st' = trace st ∨ ∃ text, trace st' = (trace st ++ [EvPrint text])%list).

(** [m] relates the state it starts in to the state it ends in, whether it
    returns or raises. *)
Definition keeps (R : State → State → Prop) {A} (m : M A) : Prop :=
  ∀ st, R st (m st).2.

(** Every [record.save] the trace gained was made through a subclass of
    [BaseRecord]. *)
Definition saves_through_records (st st' : State) : Prop :=
  ∀ c record,
    EvSave c record ∈ trace st' →
    EvSave c record ∈ trace st ∨ issubclass_BaseRecord c = true.

(** An operation on the store that leaves the records of the version type
    as they are. *)
Definition preserves_version_records (op : StoreOp unit) : Prop :=
  ∀ s, of_type RECORD_TYPE_ACAPY_VERSION (op s).2 = of_type RECORD_TYPE_ACAPY_VERSION s.

(** The two states have the same records of the version type. *)
Definition same_version_records (st st' : State) : Prop :=
  of_type RECORD_TYPE_ACAPY_VERSION (storage st')
  = of_type RECORD_TYPE_ACAPY_VERSION (storage st).

(** The exception is one of the agent's own, a subclass of [BaseError]. *)
Definition is_agent_error (e : Py.Exc) : Prop :=
  Py.is_BaseError (Py.exc_class e) = true.

(** What [m] raises, when it raises, satisfies [P]. *)
Definition raises_only (P : Py.Exc → Prop) {A} (m : M A) : Prop :=
  ∀ st e st', m st = (inl e, st') → P e.

(** [m], when it raises, relates the state it started in to the state it
    raised in. *)
Definition keeps_on_raise (R : State → State → Prop) {A} (m : M A) : Prop :=
  ∀ st e st', m st = (inl e, st') → R st st'.

(** The trace gained no call of a registered callable. *)
Definition no_new_calls (st st' : State) : Prop :=
  ∀ fn, EvCall fn ∈ trace st' → EvCall fn ∈ trace st.

(** Of the steps of a run inside the [try], those outside the store raise
    nothing but errors of the agent. *)
Definition session_agent_errors (session : Session) : Prop :=
  ∀ e, session_enter session = Some e ∨ session_inject session = Some e
       ∨ session_exit session = Some e → is_agent_error e.

Definition lifecycle_agent_errors (lifecycle : Lifecycle) : Prop :=
  (∀ s e, (wallet_config lifecycle s).1 = inl e → is_agent_error e)
  ∧ session_agent_errors (lookup_session lifecycle)
  ∧ (∀ v i, session_agent_errors (resave_session lifecycle v i))
  ∧ session_agent_errors (write_session lifecycle)
  ∧ (∀ e, close lifecycle = Some e → is_agent_error e).

(** The store after saving the records one after the other. *)
Definition save_all (records : list RecordObj) (s : gmap string Row)
  : gmap string Row :=
  foldl (λ s' record, (save record s').2) s records.

End Coroutine.

End Upgrade.

(** * The Linked-Data proof engine *)

(** The tests of [test_ed25519_signature_2020.py] call [sign] and [verify] of
    [vc/ld_proofs]; the code of both, of the suites and of the purposes is
    not part of the sources.  This module follows sections 3, 4 and 7 of the
    specification. *)

Module LDProofs.

(** *** Data model (section 3) *)

(** Modelled from the spec: a node of a document, "an ordered tree of
    string-keyed nodes and arrays": a string, an array, or a string-keyed
    object. *)
#[warnings="-register-all"] Inductive Node :=
  | Leaf (s : string)
  | Arr (items : list Node)
  | Obj (members : list (string * Node)).

(** Modelled from the spec: the key types, "KeyPairHandle: identifies a key
    by type (enumerated variant, e.g. an EdDSA family)". *)
Inductive KeyType := ED25519 | BLS12381G2 | X25519.

#[global] Instance KeyType_eq_dec : EqDecision KeyType.
Proof. solve_decision. Defined.

(** Modelled from the spec: the error taxonomy of sections 6 and 7. *)
Inductive ErrorKind :=
  | CanonicalizationError
  | UnsupportedKeyTypeError
  | SignatureMismatchError
  | PurposeMismatchError
  | UnsupportedSuiteError
  | LoaderError
  | VerificationMethodResolutionError
  | KeyNotFoundError
  | UnsupportedOperationError
  | SigningError (cause : ErrorKind).

(** Modelled from the spec: the fields of a proof other than its signature
    value, which the purpose and the orchestrator put together at signing
    time and a suite reads back at verification time. *)
Record ProofOptions := mkProofOptions {
  po_type : string;
  po_created : string;
  po_verificationMethod : string;
  po_proofPurpose : string;
  po_challenge : option string;
  po_domain : option string;
}.

(** Modelled from the spec: "Proof: { type, created, verificationMethod,
    proofPurpose, signatureValue, ...purpose-specific fields (challenge,
    domain) }". *)
Record LDProof := mkLDProof {
  metadata : ProofOptions;
  signatureValue : string;
}.

(** Modelled from the spec: "Document: an ordered tree of string-keyed nodes
    and arrays.  One reserved key holds zero, one, or a list of Proof
    objects": the fields under the other keys, and the proof set. *)
Record Document := mkDocument {
  fields : list (string * Node);
  proof : list LDProof;
}.

(** Modelled from the spec: "KeyPairHandle", key type and optional public
    key, with the raw primitives of the key-custody backend (section 6).  A
    verify-only handle fails to sign with [UnsupportedOperationError]. *)
Record KeyPair := mkKeyPair {
  keyType : KeyType;
  publicKey : option string;
  kp_sign : string → ErrorKind + string;
  kp_verify : string → string → bool;
  publicVerificationMethod : string;
}.

(** Modelled from the spec: "SuiteDescriptor: { id, keyType,
    canonicalizationAlgorithm, digestAlgorithm }", with the digest the suite
    declares, the key pair the suite checks signatures with, and the
    verification method the caller may supply. *)
Record Suite := mkSuite {
  suite_id : string;
  suite_keyType : KeyType;
  canonicalizationAlgorithm : string;
  digestAlgorithm : string;
  digest : string → string;
  suite_keyPair : KeyPair;
  suite_verificationMethod : option string;
}.

(** Modelled from the spec: "PurposeSpec: { term, challenge: optional
    string, domain: optional string }". *)
Record PurposeSpec := mkPurposeSpec {
  term : string;
  challenge : option string;
  domain : option string;
}.

(** Modelled from the spec: "PerProofResult = { suiteId,
    verificationMethod, verified, error }". *)
Record PerProofResult := mkPerProofResult {
  ppr_suiteId : string;
  ppr_verificationMethod : string;
  ppr_verified : bool;
  ppr_error : option ErrorKind;
}.

(** Modelled from the spec: "VerificationResult: { verified: bool, results:
    ordered sequence of PerProofResult }". *)
Record VerificationResult := mkVerificationResult {
  verified : bool;
  results : list PerProofResult;
}.

(** Modelled from the spec: the options of one [verify] call,
    "options{challenge?, domain?}". *)
Record VerifyOptions := mkVerifyOptions {
  vo_challenge : option string;
  vo_domain : option string;
}.

(** Modelled from the spec: what a verification method dereferences to,
    "key material/type". *)
Record VerificationMethodInfo := mkVerificationMethodInfo {
  vm_id : string;
  vm_keyType : KeyType;
  vm_publicKey : string;
}.

(** Modelled from the spec: the external collaborators of section 6 that
    are functions of the engine's inputs: the canonicalizer, which is one
    for all suites ("different suites must canonicalize identically for the
    same input") and consults the document loader, and the loader's
    dereferencing of a verification method.  [None] is the failure of
    either.  The canonical form is "a unique byte representation
    independent of superficial formatting/ordering differences" (glossary),
    and "any structural change to the signed portion of the document
    invalidates every proof derived from it" (section 3): of this the model
    keeps that two documents with the same canonical form have the same
    top-level keys. *)
Class Collaborators := {
  DocumentLoader : Type;
  canonicalize :
    DocumentLoader → list (string * Node) → ProofOptions → option string;
  resolve : DocumentLoader → string → option VerificationMethodInfo;
  canonicalize_unique :
    ∀ loader fields1 fields2 options canonical,
      canonicalize loader fields1 options = Some canonical →
      canonicalize loader fields2 options = Some canonical →
      ∀ key, key ∈ fields1.*1 ↔ key ∈ fields2.*1;
}.

Section Engine.

Context `{C : Collaborators}.

(** *** Proof suite (section 4.2) *)

(** Modelled from the spec: [signatureType] of the suites, "stable string
    identifier used for proof/suite matching". *)
Definition signatureType (suite : Suite) : string := suite_id suite.

(** Modelled from the spec: the verify-data of section 4.2, which both
    [createProof] and [verifyProof] compute,
    "digest(canonicalize(document, purposeOptions))", over the document
    minus any proof block. *)
Definition verify_data (loader : DocumentLoader) (suite : Suite)
    (document : Document) (options : ProofOptions) : ErrorKind + string :=
  match canonicalize loader (fields document) options with
  | Some canonical => inr (digest suite canonical)
  | None => inl CanonicalizationError
  end.

(** Modelled from the spec: [createProof] of the suites (section 4.2).  The
    suite refuses a key pair of another key type "before any cryptographic
    work occurs", "delegates signing of that digest to the KeyPair, and
    returns a Proof populated with purpose fields plus the signature
    value". *)
Definition createProof (loader : DocumentLoader) (suite : Suite)
    (document : Document) (purposeOptions : ProofOptions) (keyPair : KeyPair)
  : ErrorKind + LDProof :=
  if negb (bool_decide (keyType keyPair = suite_keyType suite)) then
    inl UnsupportedKeyTypeError
  else
    match verify_data loader suite document purposeOptions with
    | inl e => inl e
    | inr data =>
        match kp_sign keyPair data with
        | inl e => inl e
        | inr signature => inr (mkLDProof purposeOptions signature)
        end
    end.

(** Modelled from the spec: [verifyProof] of the suites (section 4.2).  It
    "recomputes the same verify-data from the document and the proof's own
    metadata fields, excluding signatureValue, then asks the KeyPair to
    check the signature against that recomputed digest", and "returns
    { verified: bool } or fails with SignatureMismatchError /
    UnsupportedKeyTypeError". *)
Definition verifyProof (loader : DocumentLoader) (suite : Suite)
    (p : LDProof) (documentWithoutThisProof : Document) (keyPair : KeyPair)
  : ErrorKind + bool :=
  if negb (bool_decide (keyType keyPair = suite_keyType suite)) then
    inl UnsupportedKeyTypeError
  else
    match verify_data loader suite documentWithoutThisProof (metadata p) with
    | inl e => inl e
    | inr data =>
        if kp_verify keyPair data (signatureValue p) then inr true
        else inl SignatureMismatchError
    end.

(** *** Proof purpose (section 4.3) *)

(** Modelled from the spec: [buildProofOptions] of the purposes,
    "{ proofPurpose: term, created: now, ...extra fields }", merged by [sign]
    "with {verificationMethod, type: suite.signatureType()}". *)
Definition buildProofOptions (purpose : PurposeSpec) (now : string)
    (verificationMethod type : string) : ProofOptions :=
  mkProofOptions type now verificationMethod (term purpose)
    (challenge purpose) (domain purpose).

(** Modelled from the spec: [validate] of the purposes.  It "checks
    proof.proofPurpose == term; for challenge/domain-bearing purposes also
    checks the proof's challenge/domain fields equal the values supplied by
    the caller for this specific verification call".  It returns the
    [PurposeMismatchError] when the proof is not valid. *)
Definition validate (purpose : PurposeSpec) (p : LDProof) (document : Document)
    (verificationMethodInfo : VerificationMethodInfo) (loader : DocumentLoader)
  : option ErrorKind :=
  if negb (bool_decide (po_proofPurpose (metadata p) = term purpose)) then
    Some PurposeMismatchError
  else if bool_decide (is_Some (challenge purpose))
          && negb (bool_decide (po_challenge (metadata p) = challenge purpose)) then
    Some PurposeMismatchError
  else if bool_decide (is_Some (domain purpose))
          && negb (bool_decide (po_domain (metadata p) = domain purpose)) then
    Some PurposeMismatchError
  else None.

(** Modelled from the spec: the values "supplied by the caller for this
    specific verification call" are the options of [verify], where given,
    and those of the purpose otherwise. *)
Definition purpose_for_call (purpose : PurposeSpec) (options : VerifyOptions)
  : PurposeSpec :=
  mkPurposeSpec (term purpose)
    (match vo_challenge options with Some c => Some c | None => challenge purpose end)
    (match vo_domain options with Some d => Some d | None => domain purpose end).

(** *** Sign/verify orchestrator (section 4.4) *)

(** Modelled from the spec: step 1 of [sign], the verification method of
    the new proof, "supplied by caller or derived from keyPair". *)
Definition verificationMethod_for (suite : Suite) (keyPair : KeyPair) : string :=
  match suite_verificationMethod suite with
  | Some vm => vm
  | None => publicVerificationMethod keyPair
  end.

(** Modelled from the spec: [sign] of [vc/ld_proofs], steps 1 to 6 of
    section 4.4.  [now] is the clock [buildProofOptions] reads.  A failure
    of any step is returned as [SigningError] with its cause, and no
    document. *)
Definition sign (document : Document) (suite : Suite) (purpose : PurposeSpec)
    (keyPair : KeyPair) (documentLoader : DocumentLoader) (now : string)
  : ErrorKind + Document :=
  let verificationMethod := verificationMethod_for suite keyPair in
  let others :=
    filter (λ p, po_type (metadata p) ≠ signatureType suite) (proof document) in
  let stripped := mkDocument (fields document) others in
  let proofOptions :=
    buildProofOptions purpose now verificationMethod (signatureType suite) in
  match createProof documentLoader suite stripped proofOptions keyPair with
  | inl e => inl (SigningError e)
  | inr p => inr (mkDocument (fields document) (others ++ [p]))
  end.

(** Modelled from the spec: step 2 of [verify], "find the suite in suites[]
    whose signatureType() matches the proof's type". *)
Definition find_suite (suites : list Suite) (p : LDProof) : option Suite :=
  List.find (λ s, bool_decide (signatureType s = po_type (metadata p))) suites.

(** Modelled from the spec: steps 2 to 5 of [verify] for the proof at
    position [i].  An unmatched proof is recorded with
    [UnsupportedSuiteError].  For a matched proof, "verified = signatureValid
    AND purposeValid", and what has failed is recorded in the result: the
    signature check, the canonicalization it rests on, the dereferencing of
    the verification method or the purpose.  Section 7 has failures of the
    infrastructure raise and, in the same paragraph, has every tampered
    document answered with a result; as in steps 1, 2 and 6 ("the call
    itself still returns normally", "verification failure is a data result,
    not a fault"), a failure met for one proof is a fact about that proof
    and goes into its result. *)
Definition verify_one (document : Document) (suites : list Suite)
    (purpose : PurposeSpec) (documentLoader : DocumentLoader)
    (i : nat) (p : LDProof) : PerProofResult :=
  let suiteId := po_type (metadata p) in
  let verificationMethod := po_verificationMethod (metadata p) in
  match find_suite suites p with
  | None =>
      mkPerProofResult suiteId verificationMethod false (Some UnsupportedSuiteError)
  | Some suite =>
      let documentWithoutThisProof :=
        mkDocument (fields document) (delete i (proof document)) in
      let signatureOutcome :=
        verifyProof documentLoader suite p documentWithoutThisProof
          (suite_keyPair suite) in
      let purposeOutcome :=
        match resolve documentLoader verificationMethod with
        | None => Some VerificationMethodResolutionError
        | Some verificationMethodInfo =>
            validate purpose p document verificationMethodInfo documentLoader
        end in
      let signatureValid :=
        match signatureOutcome with inr b => b | inl _ => false end in
      let purposeValid :=
        match purposeOutcome with None => true | Some _ => false end in
      let error :=
        match signatureOutcome with
        | inl e => Some e
        | inr _ => purposeOutcome
        end in
      mkPerProofResult suiteId verificationMethod
        (signatureValid && purposeValid) error
  end.

(** Modelled from the spec: the walk of [verify] over "every proof object"
    of the document, in order and each with its position. *)
Fixpoint verify_each (check : nat → LDProof → PerProofResult)
    (i : nat) (proofs : list LDProof) : list PerProofResult :=
  match proofs with
  | [] => []
  | p :: rest => check i p :: verify_each check (S i) rest
  end.

(** Modelled from the spec: the proofs that were evaluated are those
    "matched to a requested suite" (step 6); an unmatched proof is recorded
    and is not among them, "unmatched proofs do not abort the whole
    verification" (step 2), "tolerate unmatched proofs" (section 9). *)
Definition evaluated (result : PerProofResult) : bool :=
  match ppr_error result with
  | Some UnsupportedSuiteError => false
  | _ => true
  end.

(** Modelled from the spec: [verify] of [vc/ld_proofs], steps 1 to 6 of
    section 4.4.  An empty proof set gives "verified=false with an empty
    results list"; otherwise "overall verified = true iff at least one proof
    was evaluated AND every evaluated proof (matched to a requested suite)
    independently verified".  The call has the shape of [sign], a result or
    an error, and always gives a result: "the call itself still returns
    normally with the detailed per-proof breakdown". *)
Definition verify (document : Document) (suites : list Suite)
    (purpose : PurposeSpec) (documentLoader : DocumentLoader)
    (options : VerifyOptions) : ErrorKind + VerificationResult :=
  let results :=
    verify_each
      (verify_one document suites (purpose_for_call purpose options) documentLoader)
      0 (proof document) in
  inr (mkVerificationResult
         (existsb evaluated results
          && forallb (λ result, implb (evaluated result) (ppr_verified result))
               results)
         results).

(** The options of the calls of the tests: no challenge and no domain. *)
Definition no_options : VerifyOptions := mkVerifyOptions None None.

(** *** Documents under change *)

(** [{**document, key: value}]: the value under [key] is replaced where the
    key is present, and the field is added at the end where it is not. *)
Fixpoint set_field (key : string) (value : Node) (l : list (string * Node))
  : list (string * Node) :=
  match l with
  | [] => [(key, value)]
  | (k, v) :: l' =>
      if decide (k = key) then (key, value) :: l'
      else (k, v) :: set_field key value l'
  end.

(** The document with the field set. *)
Definition with_field (key : string) (value : Node) (document : Document)
  : Document :=
  mkDocument (set_field key value (fields document)) (proof document).

(** *** What a proof is checked for *)

(** The signature check of section 4.4, step 3, as a condition on the proof:
    a suite of the list has the type of the proof, its key pair has the key
    type the suite declares, the document has a canonical form under the
    metadata of the proof, and the key pair accepts the signature value for
    the digest of that form. *)
Definition signature_checks (documentLoader : DocumentLoader)
    (suites : list Suite) (document : Document) (p : LDProof) : bool :=
  match find_suite suites p with
  | None => false
  | Some suite =>
      bool_decide (keyType (suite_keyPair suite) = suite_keyType suite)
      && match canonicalize documentLoader (fields document) (metadata p) with
         | None => false
         | Some canonical =>
             kp_verify (suite_keyPair suite) (digest suite canonical)
               (signatureValue p)
         end
  end.

(** The purpose check of section 4.3 as a condition on the proof: the term
    is the expected one, and so are the challenge and the domain where the
    call expects one. *)
Definition purpose_checks (purpose : PurposeSpec) (p : LDProof) : bool :=
  bool_decide (po_proofPurpose (metadata p) = term purpose)
  && match challenge purpose with
     | Some c => bool_decide (po_challenge (metadata p) = Some c)
     | None => true
     end
  && match domain purpose with
     | Some d => bool_decide (po_domain (metadata p) = Some d)
     | None => true
     end.

(** What [verify] asks of a proof of a candidate suite: the signature
    check, a verification method the loader dereferences, and the purpose
    check. *)
Definition proof_checks (documentLoader : DocumentLoader) (suites : list Suite)
    (purpose : PurposeSpec) (document : Document) (p : LDProof) : bool :=
  signature_checks documentLoader suites document p
  && bool_decide
       (is_Some (resolve documentLoader (po_verificationMethod (metadata p))))
  && purpose_checks purpose p.

(** "Suites S with a matching signing-capable KeyPair K": the key pair has
    the key type of the suite, as has the key pair the suite verifies with,
    which accepts what [keyPair] signs. *)
Definition matching (suite : Suite) (keyPair : KeyPair) : Prop :=
  keyType keyPair = suite_keyType suite
  ∧ keyType (suite_keyPair suite) = suite_keyType suite
  ∧ ∀ data signature,
      kp_sign keyPair data = inr signature →
      kp_verify (suite_keyPair suite) data signature = true.

(** The idealised signature scheme of a suite: the digest has no
    collisions, and a signature value is accepted for one digest only. *)
Definition binding (suite : Suite) : Prop :=
  (∀ a b, digest suite a = digest suite b → a = b)
  ∧ ∀ data data' signature,
      kp_verify (suite_keyPair suite) data signature = true →
      kp_verify (suite_keyPair suite) data' signature = true →
      data = data'.

(** A change of the fields of a document "participates in canonicalization"
    when, under the metadata of every proof of the document, the changed
    fields have a canonical form and it is another one. *)
Definition canonical_form_changes (documentLoader : DocumentLoader)
    (document : Document) (fields' : list (string * Node)) : Prop :=
  ∀ p, p ∈ proof document →
    ∃ canonical canonical',
      canonicalize documentLoader (fields document) (metadata p) = Some canonical
      ∧ canonicalize documentLoader fields' (metadata p) = Some canonical'
      ∧ canonical ≠ canonical'.

End Engine.

End LDProofs.

(** ** A small engine to run the orchestrator in *)

Module LDDemo.

Import LDProofs.

(** The fields of an object in the order of their keys. *)
Fixpoint insert_member (x : string * string) (l : list (string * string))
  : list (string * string) :=
  match l with
  | [] => [x]
  | y :: l' => if String.leb x.1 y.1 then x :: l else y :: insert_member x l'
  end.

Definition sort_members (l : list (string * string)) : list (string * string) :=
  foldr insert_member [] l.

Definition join (l : list string) : string := foldr String.append "" l.

(** A canonical form: leaves in quotes, arrays in order, the members of an
    object in the order of their keys. *)
Fixpoint serialize (n : Node) : string :=
  match n with
  | Leaf s => "'" +:+ s +:+ "'"
  | Arr items => "[" +:+ join (map (λ item, serialize item +:+ ",") items) +:+ "]"
  | Obj members =>
      "{" +:+ join (map (λ kv, kv.1 +:+ ":" +:+ kv.2 +:+ ",")
                     (sort_members (map (λ kv, (kv.1, serialize kv.2)) members)))
      +:+ "}"
  end.

Definition serialize_options (o : ProofOptions) : string :=
  po_type o +:+ "|" +:+ po_created o +:+ "|" +:+ po_verificationMethod o +:+ "|"
  +:+ po_proofPurpose o +:+ "|" +:+ default "" (po_challenge o) +:+ "|"
  +:+ default "" (po_domain o).

(** The terms the context of the documents defines. *)
Definition vocabulary : list string := ["email"; "unsigned_claim"].

(** A document has a canonical form when its top-level keys are terms of
    the vocabulary: one mark per term, present or absent, then the fields
    and the options. *)
Definition demo_canonicalize (fields : list (string * Node))
    (options : ProofOptions) : option string :=
  if forallb (λ key, bool_decide (key ∈ vocabulary)) fields.*1 then
    Some (join (map (λ key, if bool_decide (key ∈ fields.*1) then "1" else "0")
                  vocabulary)
          +:+ serialize (Obj fields) +:+ "#" +:+ serialize_options options)
  else None.

(** The law of the canonicalizer: the marks tell the top-level keys of the
    document. *)
Definition demo_canonicalize_unique fields1 fields2 options canonical :
  demo_canonicalize fields1 options = Some canonical →
  demo_canonicalize fields2 options = Some canonical →
  ∀ key, key ∈ fields1.*1 ↔ key ∈ fields2.*1.
Proof.
  intros H1 H2 key. unfold demo_canonicalize in H1, H2.
  destruct (forallb _ fields1.*1) eqn:Hv1; [|done].
  destruct (forallb _ fields2.*1) eqn:Hv2; [|done].
  rewrite <- H2 in H1. clear H2. injection H1 as Hmarks.
  rewrite forallb_forall in Hv1, Hv2.
  assert (Hterm : ∀ (l : list string),
    (∀ x, In x l → bool_decide (x ∈ vocabulary) = true) →
    key ∈ l → key = "email" ∨ key = "unsigned_claim").
  { intros l Hl Hin. apply list_elem_of_In in Hin.
    pose proof (bool_decide_eq_true_1 _ (Hl _ Hin)) as Hvoc.
    apply elem_of_cons in Hvoc as [?|Hvoc]; [by left|right].
    by apply list_elem_of_singleton in Hvoc. }
  cbn in Hmarks.
  repeat case_bool_decide; cbn in Hmarks; try discriminate Hmarks; split; intros Hin;
    (destruct (Hterm _ Hv1 Hin) as [->| ->] || destruct (Hterm _ Hv2 Hin) as [->| ->]);
    done.
Qed.

(** A loader is the table of the verification methods it dereferences. *)
#[global] Instance demo_collaborators : Collaborators := {|
  DocumentLoader := string → option VerificationMethodInfo;
  canonicalize := λ _, demo_canonicalize;
  resolve := λ loader iri, loader iri;
  canonicalize_unique := λ _, demo_canonicalize_unique;
|}.

Definition demo_vm : string := "did:key:z6Mk#z6Mk".

Definition demo_loader : DocumentLoader (Collaborators := demo_collaborators) :=
  λ iri,
    if decide (iri = demo_vm) then
      Some (mkVerificationMethodInfo demo_vm ED25519 "z6Mk")
    else None.

(** A key pair whose signature of data is the data behind a tag. *)
Definition demo_keyPair : KeyPair :=
  mkKeyPair ED25519 (Some "z6Mk")
    (λ data, inr ("ed25519:" +:+ data))
    (λ data signature, bool_decide (signature = "ed25519:" +:+ data))
    demo_vm.

Definition demo_suite : Suite :=
  mkSuite "Ed25519Signature2020" ED25519 "toy-c14n" "toy-digest"
    (λ canonical, "digest:" +:+ canonical) demo_keyPair (Some demo_vm).

Definition assertion : PurposeSpec := mkPurposeSpec "assertionMethod" None None.

(** The document of the concrete scenario of section 8. *)
Definition demo_document : Document :=
  mkDocument [("email", Leaf "a@example.com")] [].

(** The same document, carrying the proof of a suite of another type. *)
Definition other_proof : LDProof :=
  mkLDProof
    (mkProofOptions "BbsBlsSignature2020" "2020-01-01T00:00:00Z" demo_vm
       "assertionMethod" None None)
    "zzzz".

Definition demo_document_with_other_proof : Document :=
  mkDocument [("email", Leaf "a@example.com")] [other_proof].

Definition demo_now : string := "2021-05-01T12:00:00Z".

(** The proof [sign] makes for the document at [demo_now]. *)
Definition demo_proof : LDProof :=
  mkLDProof
    (mkProofOptions "Ed25519Signature2020" demo_now demo_vm "assertionMethod"
       None None)
    "ed25519:digest:10{email:'a@example.com',}#Ed25519Signature2020|2021-05-01T12:00:00Z|did:key:z6Mk#z6Mk|assertionMethod||".

Definition signed_document : Document :=
  mkDocument [("email", Leaf "a@example.com")] [demo_proof].

Definition signed_document_with_other_proof : Document :=
  mkDocument [("email", Leaf "a@example.com")] [other_proof; demo_proof].

(** The signed document with a signature value that is not the one of its
    content. *)
Definition bad_proof : LDProof := mkLDProof (metadata demo_proof) "ed25519:zzzz".

Definition bad_signed_document : Document :=
  mkDocument [("email", Leaf "a@example.com")] [bad_proof].

Definition verified_result : VerificationResult :=
  mkVerificationResult true
    [mkPerProofResult "Ed25519Signature2020" demo_vm true None].

(** The signed document with a proof that names a verification method the
    loader does not know. *)
Definition unknown_vm_proof : LDProof :=
  mkLDProof
    (mkProofOptions "Ed25519Signature2020" demo_now "did:key:unknown"
       "assertionMethod" None None)
    (signatureValue demo_proof).

Definition unknown_vm_document : Document :=
  mkDocument [("email", Leaf "a@example.com")] [unknown_vm_proof].

End LDDemo.

(** ** A small world to run the command in *)

Module UpgradeDemo.

Import Storage Upgrade.

(** Three record classes, each stored under its own record type, and one
    class that is not a record. *)
Definition record_type_of (cls : string) : option string :=
  if decide (cls = "ConnRecord") then Some "connection"
  else if decide (cls = "V10CredentialExchange") then Some "credential_exchange_v10"
  else if decide (cls = "V20CredExRecord") then Some "cred_ex_v20"
  else None.

Definition demo_load_class (record_path : string) : Py.Exc + string :=
  if decide (record_path = "aries_cloudagent.connections.models.conn_record.ConnRecord")
  then inr "ConnRecord"
  else if decide (record_path = "aries_cloudagent.protocols.issue_credential.v1_0.models.credential_exchange.V10CredentialExchange")
  then inr "V10CredentialExchange"
  else if decide (record_path = "aries_cloudagent.protocols.issue_credential.v2_0.models.cred_ex_record.V20CredExRecord")
  then inr "V20CredExRecord"
  else if decide (record_path = "aries_cloudagent.storage.record.StorageRecord")
  then inr "StorageRecord"
  else inl (Py.mkExc Py.ClassNotFoundError ("Class not found: " +:+ record_path)).

(** [query] returns the ids of the records of the class, [save] writes the
    record back as it is. *)
Definition demo_query (cls : string) (s : gmap string Row)
  : Py.Exc + list string :=
  match record_type_of cls with
  | Some t => inr (map_to_list (of_type t s)).*1
  | None => inl (Py.mkExc Py.OtherException "AttributeError")
  end.

#[global] Instance demo_world (running : string) : World := {|
  version := running;
  RECORD_TYPE_ACAPY_VERSION := "acapy_version";
  PyClass := string;
  class_str := λ c, "<class '" +:+ c +:+ "'>";
  issubclass_BaseRecord := λ c, bool_decide (is_Some (record_type_of c));
  load_class := demo_load_class;
  RecordObj := string;
  query := demo_query;
  save := λ _ s, (inr (), s);
  new_record_id := "0b1e";
|}.

Definition conn_path := "aries_cloudagent.connections.models.conn_record.ConnRecord".
Definition v10_path := "aries_cloudagent.protocols.issue_credential.v1_0.models.credential_exchange.V10CredentialExchange".
Definition v20_path := "aries_cloudagent.protocols.issue_credential.v2_0.models.cred_ex_record.V20CredExRecord".

(** A store with one record of each class and the version record [stored],
    when given. *)
Definition demo_records : gmap string Row :=
  <["c1" := mkRow "connection" "{}" ∅]>
  (<["x1" := mkRow "credential_exchange_v10" "{}" ∅]>
  (<["y1" := mkRow "cred_ex_v20" "{}" ∅]> ∅)).

Definition demo_store (stored : option string) : gmap string Row :=
  match stored with
  | Some v => <["ver" := mkRow "acapy_version" v ∅]> demo_records
  | None => demo_records
  end.

Definition demo_state (running : string) (stored : option string)
  : State (W := demo_world running) :=
  mkState (demo_store stored) [].

(** Three configured versions, each re-saving the records of one class. *)
Definition three_versions : list (string * UpgradeConfig) :=
  [("v0.7.0", mkUpgradeConfig (Some [conn_path]) None);
   ("v0.7.1", mkUpgradeConfig (Some [v10_path]) None);
   ("v0.7.2", mkUpgradeConfig (Some [v20_path]) None)].

(** Three configured versions, the last of which asks for its existing
    records to be updated. *)
Definition update_in_last : list (string * UpgradeConfig) :=
  [("v0.7.1", mkUpgradeConfig None None);
   ("v0.7.2", mkUpgradeConfig None None);
   ("v0.7.3", mkUpgradeConfig None (Some true))].

(** Two configured versions; the one with a registered callable asks for
    its existing records to be updated. *)
Definition update_in_registered : list (string * UpgradeConfig) :=
  [("v0.7.1", mkUpgradeConfig None None);
   ("v0.7.2", mkUpgradeConfig None (Some true))].

(** The running version 0.7.3, over the three configured versions. *)
Definition world_0_7_3 : World := demo_world "0.7.3".

Definition settings_three : Settings := mkSettings None (Some three_versions).

Definition settings_three_from (v : string) : Settings :=
  mkSettings (Some v) (Some three_versions).

Definition stored_0_7_0 : StorageRecord :=
  mkStorageRecord "acapy_version" "v0.7.0" ∅ "ver".

(** Two configured versions, one of which has two components only. *)
Definition malformed_versions : list (string * UpgradeConfig) :=
  [("v0.7.0", mkUpgradeConfig None None);
   ("v0.7", mkUpgradeConfig None None)].

(** One configured version that re-saves the connections and then names a
    class that does not exist. *)
Definition bad_path_version : list (string * UpgradeConfig) :=
  [("v0.7.0", mkUpgradeConfig (Some [conn_path; "no.such.Class"]) None)].

(** A store with two records of the version type. *)
Definition two_markers : gmap string Row :=
  <["ver2" := mkRow "acapy_version" "v0.7.1" ∅]> (demo_store (Some "v0.7.0")).

(** A world in which the query of a record class returns three records and
    the save of the second one fails. *)
#[global] Instance flaky_world : World := {|
  version := "0.7.3";
  RECORD_TYPE_ACAPY_VERSION := "acapy_version";
  PyClass := string;
  class_str := λ c, "<class '" +:+ c +:+ "'>";
  issubclass_BaseRecord := λ c, bool_decide (is_Some (record_type_of c));
  load_class := demo_load_class;
  RecordObj := string;
  query := λ _ _, inr ["c1"; "c2"; "c3"];
  save := λ record s,
    if decide (record = "c2") then
      (inl (Py.mkExc Py.StorageError "Error when saving"), s)
    else (inr (), <[record := mkRow "connection" "{}" ∅]> s);
  new_record_id := "0b1e";
|}.

(** A run in which the wallet does not open. *)
Definition wallet_locked : Lifecycle :=
  mkLifecycle None
    (λ s, (inl (Py.mkExc Py.BaseError "Wallet is locked"), s))
    opened (λ _ _, opened) opened None.

(** One configured version with two classes of records to re-save. *)
Definition two_paths_version : list (string * UpgradeConfig) :=
  [("v0.7.0", mkUpgradeConfig (Some [conn_path; v10_path]) None)].

(** A run in which the second session of the re-saving of a version does
    not open. *)
Definition second_session_fails : Lifecycle :=
  mkLifecycle None (λ s, (inr (), s)) opened
    (λ _ i,
       if decide (i = 1%nat) then
         mkSession (Some (Py.mkExc Py.BaseError "Session limit reached")) None None
       else opened)
    opened None.

End UpgradeDemo.

(** * Facts about the upgrade command *)

(** ** The Python primitives at work *)

Example split_version : Py.split "." "v0.7.2" = ["v0"; "7"; "2"].
Proof. reflexivity. Qed.

Example split_empty_fields : Py.split "." "a..b." = ["a"; ""; "b"; ""].
Proof. reflexivity. Qed.

Example int_plain : Py.int_opt "07" = Some 7.
Proof. reflexivity. Qed.

Example int_signed_spaced : Py.int_opt " -1_0 " = Some (-10).
Proof. reflexivity. Qed.

Example int_rejects : Py.int_opt "" = None /\ Py.int_opt "1__0" = None /\ Py.int_opt "2a" = None.
Proof. repeat split; reflexivity. Qed.

(** A no-break space is stripped, a file separator is not. *)
Example int_spaces :
  Py.int_opt (String (ascii_of_nat 160) "7") = Some 7
  /\ Py.int_opt (String (ascii_of_nat 28) "7") = None.
Proof. split; reflexivity. Qed.

Example slice_negative : Py.slice_from [1; 2; 3] (-1) = [3] /\ Py.slice_from [1; 2; 3] (-5) = [1; 2; 3].
Proof. split; reflexivity. Qed.

Import Storage Upgrade.

Example version_key_ex : version_key "v0.7.2" = inr (0, 7, 2).
Proof. reflexivity. Qed.

Example sorted_versions_numeric :
  sorted_versions ["v0.10.0"; "v0.7.2"; "v0.9.1"] = inr ["v0.7.2"; "v0.9.1"; "v0.10.0"].
Proof. reflexivity. Qed.

Example sorted_versions_stable :
  sorted_versions ["v0.07.2"; "v0.7.1"; "v0.7.2"] = inr ["v0.7.1"; "v0.07.2"; "v0.7.2"].
Proof. reflexivity. Qed.

(** ** The order of the versions *)

Section Order.

Lemma tuple3_lt_spec a b :
  Py.tuple3_lt a b = true ↔
  a.1.1 < b.1.1
  ∨ (a.1.1 = b.1.1 ∧ (a.1.2 < b.1.2 ∨ (a.1.2 = b.1.2 ∧ a.2 < b.2))).
Proof.
  destruct a as [[a1 a2] a3], b as [[b1 b2] b3]. cbn.
  rewrite !orb_true_iff, !andb_true_iff, !orb_true_iff, !andb_true_iff.
  rewrite !Z.ltb_lt, !Z.eqb_eq. done.
Qed.

Lemma tuple3_lt_false a b :
  Py.tuple3_lt a b = false ↔
  b.1.1 < a.1.1
  ∨ (a.1.1 = b.1.1 ∧ (b.1.2 < a.1.2 ∨ (a.1.2 = b.1.2 ∧ b.2 ≤ a.2))).
Proof.
  rewrite <- not_true_iff_false, tuple3_lt_spec. lia.
Qed.

Lemma key_le_trans {A} (x y z : (Z * Z * Z) * A) :
  Py.key_le x y → Py.key_le y z → Py.key_le x z.
Proof. unfold Py.key_le. rewrite !tuple3_lt_false. lia. Qed.

Lemma key_le_of_lt {A} (x y : (Z * Z * Z) * A) :
  Py.tuple3_lt y.1 x.1 = true → Py.key_le y x.
Proof. unfold Py.key_le. rewrite tuple3_lt_false, tuple3_lt_spec. lia. Qed.

Lemma insert_by_key_perm {A} (x : (Z * Z * Z) * A) l :
  Py.insert_by_key x l ≡ₚ x :: l.
Proof.
  induction l as [|y l IH]; cbn; [done|].
  destruct (Py.tuple3_lt y.1 x.1); [|done].
  by rewrite IH, Permutation_swap.
Qed.

Lemma insert_by_key_sorted {A} (x : (Z * Z * Z) * A) l :
  StronglySorted Py.key_le l → StronglySorted Py.key_le (Py.insert_by_key x l).
Proof.
  induction 1 as [|y l Hsorted IH Hall]; cbn.
  - by repeat constructor.
  - destruct (Py.tuple3_lt y.1 x.1) eqn:Hlt.
    + constructor; [done|].
      rewrite insert_by_key_perm. constructor; [by apply key_le_of_lt|done].
    + constructor; [by constructor|].
      constructor; [done|].
      eapply Forall_impl; [exact Hall|]. intros z Hz. by eapply key_le_trans.
Qed.

Lemma sort_by_key_perm {A} (l : list ((Z * Z * Z) * A)) : Py.sort_by_key l ≡ₚ l.
Proof.
  induction l as [|x l IH]; cbn; [done|].
  by rewrite insert_by_key_perm, IH.
Qed.

Lemma sort_by_key_sorted {A} (l : list ((Z * Z * Z) * A)) :
  StronglySorted Py.key_le (Py.sort_by_key l).
Proof.
  induction l as [|x l IH]; cbn; [constructor|]. by apply insert_by_key_sorted.
Qed.

Lemma exc_map_inr {A B} (f : A → Py.Exc + B) l ys :
  exc_map f l = inr ys → Forall2 (λ x y, f x = inr y) l ys.
Proof.
  revert ys. induction l as [|x l IH]; intros ys; cbn.
  - intros [= <-]. constructor.
  - destruct (f x) as [e|y] eqn:Hx; cbn; [done|].
    destruct (exc_map f l) as [e|ys'] eqn:Hl; cbn; [done|].
    intros [= <-]. constructor; eauto.
Qed.

Lemma slice_from_drop {A} (l : list A) i : ∃ n, Py.slice_from l i = drop n l.
Proof. unfold Py.slice_from. destruct (i <? 0); eauto. Qed.

Import Upgrade.

(** What the loop goes through is in ascending order of the keys, whatever
    its first element: the versions are those of a tail of the sorted
    list, each next to its key, and all are configured. *)
Lemma versions_to_process_ascending upgrade_configs upgrade_from_version versions :
  versions_to_process upgrade_configs upgrade_from_version = inr versions →
  ∃ keyed : list ((Z * Z * Z) * string),
    versions = keyed.*2
    ∧ StronglySorted Py.key_le keyed
    ∧ Forall (λ kv, version_key kv.2 = inr kv.1) keyed
    ∧ versions ⊆ upgrade_configs.*1.
Proof.
  unfold versions_to_process, sorted_versions.
  destruct (exc_map version_key upgrade_configs.*1) as [e|keys] eqn:Hkeys; cbn; [done|].
  destruct (Py.index _ _) as [e|i]; cbn; [done|].
  intros [= <-].
  destruct (slice_from_drop (Py.sort_by_key (zip keys upgrade_configs.*1)).*2 (i - 1))
    as [n ->].
  apply exc_map_inr in Hkeys.
  exists (drop n (Py.sort_by_key (zip keys upgrade_configs.*1))).
  split; [by rewrite fmap_drop|]. split; [|split].
  - pose proof (sort_by_key_sorted (zip keys upgrade_configs.*1)) as Hsorted.
    rewrite <- (take_drop n (Py.sort_by_key _)) in Hsorted.
    by apply StronglySorted_app_1_r in Hsorted.
  - apply Forall_drop. rewrite sort_by_key_perm.
    clear -Hkeys. induction Hkeys; cbn; constructor; eauto.
  - etrans; [apply subseteq_drop|].
    rewrite sort_by_key_perm, snd_zip; [done|].
    by rewrite (Forall2_length _ _ _ Hkeys).
Qed.

End Order.

(** ** Resolving the version to upgrade from *)

Section Resolve.

Context `{W : World}.

Implicit Types (st : State) (settings : Settings).


Lemma resolve_found settings st r :
  find_record RECORD_TYPE_ACAPY_VERSION (storage st) = inr r →
  ∃ st', resolve_from_version settings st = (inr (Some r, sr_value r), st')
         ∧ only_printed st st'.
Proof.
  intros Hfind.
  unfold resolve_from_version, try_except, mbind, M_bind, read_store.
  rewrite Hfind.
  destruct (setting_from_version settings) as [v|]; cbn.
  - eexists. split; [reflexivity|]. split; cbn; eauto.
  - eexists. split; [reflexivity|]. split; cbn; eauto.
Qed.

Lemma resolve_not_found_setting settings st e v :
  find_record RECORD_TYPE_ACAPY_VERSION (storage st) = inl e →
  Py.exc_class e = Py.StorageNotFoundError →
  setting_from_version settings = Some v →
  resolve_from_version settings st = (inr (None, v), st).
Proof.
  intros Hfind Hcls Hset.
  unfold resolve_from_version, try_except, mbind, M_bind, read_store, isinstance.
  rewrite Hfind, Hset, Hcls. reflexivity.
Qed.

Lemma resolve_not_found_no_setting settings st e :
  find_record RECORD_TYPE_ACAPY_VERSION (storage st) = inl e →
  Py.exc_class e = Py.StorageNotFoundError →
  setting_from_version settings = None →
  resolve_from_version settings st =
    (inl (Py.mkExc Py.UpgradeError
            "ACA-Py version not found in storage and no --from-version specified."),
     st).
Proof.
  intros Hfind Hcls Hset.
  unfold resolve_from_version, try_except, mbind, M_bind, read_store, isinstance.
  rewrite Hfind, Hset, Hcls. reflexivity.
Qed.

Lemma resolve_other_error settings st e :
  find_record RECORD_TYPE_ACAPY_VERSION (storage st) = inl e →
  Py.exc_class e ≠ Py.StorageNotFoundError →
  resolve_from_version settings st = (inl e, st).
Proof.
  intros Hfind Hcls.
  unfold resolve_from_version, try_except, mbind, M_bind, read_store, isinstance.
  rewrite Hfind. rewrite bool_decide_eq_false_2 by done. reflexivity.
Qed.

(** Whatever happens, resolving leaves the store alone and prints at most
    one line; and the record it returns is the one [find_record] finds. *)
Lemma resolve_inv settings st res st' :
  resolve_from_version settings st = (res, st') →
  only_printed st st' ∧
  ∀ vrec f, res = inr (vrec, f) →
    match vrec with
    | Some r =>
        find_record RECORD_TYPE_ACAPY_VERSION (storage st) = inr r ∧ f = sr_value r
    | None =>
        setting_from_version settings = Some f ∧
        ∃ e, find_record RECORD_TYPE_ACAPY_VERSION (storage st) = inl e
             ∧ Py.exc_class e = Py.StorageNotFoundError
    end.
Proof.
  intros Hres.
  destruct (find_record RECORD_TYPE_ACAPY_VERSION (storage st)) as [e|r] eqn:Hfind.
  - destruct (decide (Py.exc_class e = Py.StorageNotFoundError)) as [Hc|Hc].
    + destruct (setting_from_version settings) as [v|] eqn:Hset.
      * rewrite (resolve_not_found_setting _ _ _ _ Hfind Hc Hset) in Hres.
        injection Hres as <- <-. split; [split; eauto|].
        intros vrec f [= <- <-]. eauto.
      * rewrite (resolve_not_found_no_setting _ _ _ Hfind Hc Hset) in Hres.
        injection Hres as <- <-. split; [split; eauto|]. intros ? ? [=].
    + rewrite (resolve_other_error _ _ _ Hfind Hc) in Hres.
      injection Hres as <- <-. split; [split; eauto|]. intros ? ? [=].
  - destruct (resolve_found settings st r Hfind) as (st1 & Hr & Hp).
    rewrite Hr in Hres. injection Hres as <- <-. split; [done|].
    intros vrec f [= <- <-]. done.
Qed.

(** The setting ["upgrade.from_version"] is read while resolving and nowhere
    after. *)
Lemma upgrade_from_ignores_setting inst settings v vrec f :
  upgrade_from inst settings vrec f =
  upgrade_from inst (mkSettings v (setting_config settings)) vrec f.
Proof. reflexivity. Qed.

(** C8.  When the version record is in the store, its value is the version
    to upgrade from, whatever the setting ["upgrade.from_version"] says: the
    rest of the run is the one from the stored value with the setting
    removed.  When there is no version record and no such setting, [upgrade]
    raises [UpgradeError] and leaves the state as it found it: nothing was
    re-saved, no callable was called, nothing was written. *)
Theorem upgrade_from_version_resolution settings st :
  (∀ r, find_record RECORD_TYPE_ACAPY_VERSION (storage st) = inr r →
     ∃ st', resolve_from_version settings st = (inr (Some r, sr_value r), st')
            ∧ only_printed st st'
            ∧ upgrade_body CONFIG_v7_3 settings st =
              upgrade_from (VersionUpgradeConfig_init CONFIG_v7_3)
                (mkSettings None (setting_config settings)) (Some r) (sr_value r) st')
  ∧ (∀ e, find_record RECORD_TYPE_ACAPY_VERSION (storage st) = inl e →
       Py.exc_class e = Py.StorageNotFoundError →
       setting_from_version settings = None →
       upgrade settings st =
         (inl (Py.mkExc Py.UpgradeError
                 "Error during upgrade: ACA-Py version not found in storage and no --from-version specified."),
          st)).
Proof.
  split.
  - intros r Hfind.
    destruct (resolve_found settings st r Hfind) as (st' & Hr & Hp).
    exists st'. split; [done|]. split; [done|].
    unfold upgrade_body, mbind, M_bind. rewrite Hr. reflexivity.
  - intros e Hfind Hcls Hset.
    unfold upgrade, upgrade_with, try_except, upgrade_body, mbind, M_bind.
    rewrite (resolve_not_found_no_setting _ _ _ Hfind Hcls Hset). reflexivity.
Qed.

(** C9.  When the resolved version is the running one, or has no entry in
    ["upgrade.config"], [upgrade] raises [UpgradeError] in the state resolving
    left: the store is the one before the call, and nothing was re-saved or
    called. *)
Theorem upgrade_rejects_same_or_unconfigured settings st vrec f st1 :
  resolve_from_version settings st = (inr (vrec, f), st1) →
  (f = "v" +:+ version
   ∨ ∃ upgrade_configs, setting_config settings = Some upgrade_configs
                        ∧ dict_contains f upgrade_configs = false) →
  ∃ msg, upgrade settings st = (inl (Py.mkExc Py.UpgradeError msg), st1)
         ∧ only_printed st st1.
Proof.
  intros Hres Hcase.
  destruct (resolve_inv _ _ _ _ Hres) as [Hp _].
  unfold upgrade, upgrade_with, try_except, upgrade_body, mbind, M_bind.
  rewrite Hres. cbn [fst snd]. unfold upgrade_from.
  destruct (decide (f = "v" +:+ version)) as [Heq|Hne].
  - eexists. split; [reflexivity|done].
  - destruct Hcase as [?|(c & Hc & Hnot)]; [done|].
    rewrite Hc, Hnot. eexists. split; [reflexivity|done].
Qed.

End Resolve.

(** ** Relations every step of a computation keeps *)

Section Keeps.

Context `{W : World}.

Variable R : State → State → Prop.
Hypothesis R_refl : ∀ st, R st st.
Hypothesis R_trans : ∀ st1 st2 st3, R st1 st2 → R st2 st3 → R st1 st3.


Lemma keeps_ret {A} (a : A) : keeps R (mret a).
Proof. intros st. apply R_refl. Qed.

Lemma keeps_raise {A} c msg : keeps R (raise (A := A) c msg).
Proof. intros st. apply R_refl. Qed.

Lemma keeps_lift_exc {A} (r : Py.Exc + A) : keeps R (lift_exc r).
Proof. intros st. apply R_refl. Qed.

Lemma keeps_read_store {A} (f : gmap string Row → Py.Exc + A) : keeps R (read_store f).
Proof. intros st. apply R_refl. Qed.

Lemma keeps_bind {A B} (m : M A) (k : A → M B) :
  keeps R m → (∀ a, keeps R (k a)) → keeps R (m ≫= k).
Proof.
  intros Hm Hk st. unfold mbind, M_bind.
  specialize (Hm st). destruct (m st) as [[e|a] st1]; cbn in *; [done|].
  eapply R_trans; [exact Hm|apply Hk].
Qed.

Lemma keeps_try_except {A} (body : M A) matches handler :
  keeps R body → (∀ e, keeps R (handler e)) → keeps R (try_except body matches handler).
Proof.
  intros Hb Hh st. unfold try_except.
  specialize (Hb st). destruct (body st) as [[e|a] st1]; cbn in *; [|done].
  destruct (matches e); [|done].
  eapply R_trans; [exact Hb|apply Hh].
Qed.

Lemma keeps_for_each {A} (l : list A) (body : A → M unit) :
  (∀ x, x ∈ l → keeps R (body x)) → keeps R (for_each l body).
Proof.
  induction l as [|x l IH]; intros Hbody; cbn [for_each].
  - apply keeps_ret.
  - apply keeps_bind.
    + apply Hbody. left.
    + intros _. apply IH. intros y Hy. apply Hbody. by right.
Qed.

Hypothesis R_print : ∀ text, keeps R (print text).
Hypothesis R_save : ∀ record, keeps R (lift_store (save record)).
Hypothesis R_emit_save :
  ∀ c record, issubclass_BaseRecord c = true → keeps R (emit (EvSave c record)).

Lemma keeps_resolve settings : keeps R (resolve_from_version settings).
Proof.
  unfold resolve_from_version. apply keeps_try_except.
  - apply keeps_bind; [apply keeps_read_store|]. intros r.
    apply keeps_bind; [|intros; apply keeps_ret].
    destruct (setting_from_version settings); [apply R_print|apply keeps_ret].
  - intros _. destruct (setting_from_version settings);
      [apply keeps_ret|apply keeps_raise].
Qed.

Lemma keeps_resave_record_path record_path : keeps R (resave_record_path record_path).
Proof.
  unfold resave_record_path. apply keeps_bind.
  - apply keeps_try_except; [apply keeps_lift_exc|]. intros; apply keeps_raise.
  - intros c. destruct (issubclass_BaseRecord c) eqn:Hc; cbn [negb].
    + apply keeps_bind; [apply keeps_read_store|]. intros records.
      apply keeps_bind; [|intros; apply R_print].
      apply keeps_for_each. intros record _.
      apply keeps_bind; [by apply R_emit_save|]. intros _. apply R_save.
    + apply keeps_raise.
Qed.

Variable config_dict : gmap string RegistryEntry.

Hypothesis R_call :
  ∀ ver f,
    get_update_existing_func (VersionUpgradeConfig_init config_dict) ver = Some f →
    keeps R (emit (EvCall (fn_name f))) ∧ keeps R (lift_store (fn_run f)).

Lemma keeps_upgrade_step upgrade_configs upgrade_from_version from_version_config :
  keeps R (upgrade_step (VersionUpgradeConfig_init config_dict) upgrade_configs
           upgrade_from_version from_version_config).
Proof.
  unfold upgrade_step.
  destruct (dict_get from_version_config upgrade_configs) as [uc|];
    [|apply keeps_raise].
  apply keeps_bind.
  - destruct (cfg_resave_records uc); [|apply keeps_ret].
    apply keeps_for_each. intros; apply keeps_resave_record_path.
  - intros _. destruct (cfg_update_existing_records uc); [|apply keeps_ret].
    destruct (get_update_existing_func _ _) as [f|] eqn:Hf; [|apply keeps_raise].
    destruct (R_call _ _ Hf). apply keeps_bind; [done|]. by intros _.
Qed.

Lemma keeps_upgrade_steps upgrade_configs upgrade_from_version versions :
  keeps R (for_each versions
           (upgrade_step (VersionUpgradeConfig_init config_dict) upgrade_configs
              upgrade_from_version)).
Proof. apply keeps_for_each. intros; apply keeps_upgrade_step. Qed.

Hypothesis R_write : ∀ vrec to_version, keeps R (update_storage_version vrec to_version).

Lemma keeps_upgrade_from settings vrec f :
  keeps R (upgrade_from (VersionUpgradeConfig_init config_dict) settings vrec f).
Proof.
  unfold upgrade_from.
  destruct (decide _); [apply keeps_raise|].
  destruct (setting_config settings) as [c|]; [|apply keeps_raise].
  destruct (negb _); [apply keeps_raise|].
  apply keeps_bind; [apply keeps_lift_exc|]. intros versions.
  apply keeps_bind; [apply keeps_upgrade_steps|]. intros _. apply R_write.
Qed.

Lemma keeps_upgrade_with settings : keeps R (upgrade_with config_dict settings).
Proof.
  unfold upgrade_with. apply keeps_try_except; [|intros; apply keeps_raise].
  unfold upgrade_body. apply keeps_bind; [apply keeps_resolve|].
  intros [vrec f]. apply keeps_upgrade_from.
Qed.

End Keeps.

(** ** Re-saving records *)

Section Resave.

Context `{W : World}.


Lemma saves_through_records_refl st : saves_through_records st st.
Proof. intros c r Hin. by left. Qed.

Lemma saves_through_records_trans st1 st2 st3 :
  saves_through_records st1 st2 → saves_through_records st2 st3 →
  saves_through_records st1 st3.
Proof.
  intros H12 H23 c r Hin.
  destruct (H23 c r Hin) as [Hin2|?]; [|by right]. by apply H12.
Qed.

Lemma saves_lift_store {A} (op : StoreOp A) : keeps saves_through_records (lift_store op).
Proof.
  intros st c r. unfold lift_store.
  destruct (op (storage st)) as [res s']. cbn. by left.
Qed.

Lemma saves_emit e :
  (∀ c record, e = EvSave c record → issubclass_BaseRecord c = true) →
  keeps saves_through_records (emit e).
Proof.
  intros He st c r. cbn. rewrite elem_of_app, list_elem_of_singleton.
  intros [Hin|Heq]; [by left|]. right. by eapply He.
Qed.

Lemma saves_upgrade_with config_dict settings :
  keeps saves_through_records (upgrade_with config_dict settings).
Proof.
  apply keeps_upgrade_with.
  - apply saves_through_records_refl.
  - apply saves_through_records_trans.
  - intros text. apply saves_emit. intros ? ? [=].
  - intros record. apply saves_lift_store.
  - intros c record Hc. apply saves_emit. by intros ? ? [= <- <-].
  - intros ver f _. split; [|apply saves_lift_store].
    apply saves_emit. intros ? ? [=].
  - intros [r|] to_version; apply saves_lift_store.
Qed.

(** A loop that returns has returned from every round. *)
Lemma for_each_returns {A} (l : list A) (body : A → M unit) st st' :
  for_each l body st = (inr (), st') →
  ∀ x, x ∈ l → ∃ st0 st1, body x st0 = (inr (), st1).
Proof.
  revert st. induction l as [|y l IH]; intros st Hrun x Hx.
  - by apply elem_of_nil in Hx.
  - cbn [for_each] in Hrun. unfold mbind, M_bind in Hrun.
    destruct (body y st) as [[e|[]] st1] eqn:Hy; [done|].
    apply elem_of_cons in Hx as [->|Hx]; [eauto|]. by eapply IH.
Qed.

Lemma resave_record_path_unloadable record_path st e :
  load_class record_path = inl e →
  ∃ e', resave_record_path record_path st = (inl e', st)
        ∧ (Py.exc_class e = Py.ClassNotFoundError →
           e' = Py.mkExc Py.UpgradeError ("Unknown Record type " +:+ record_path)).
Proof.
  intros Hload.
  unfold resave_record_path, mbind, M_bind, try_except, lift_exc, isinstance.
  rewrite Hload. case_bool_decide as Hc.
  - eexists; split; [reflexivity|done].
  - eexists; split; [reflexivity|done].
Qed.

Lemma resave_record_path_not_a_record record_path st c :
  load_class record_path = inr c →
  issubclass_BaseRecord c = false →
  resave_record_path record_path st =
    (inl (Py.mkExc Py.UpgradeError
            ("Only BaseRecord can be resaved, found: " +:+ class_str c)), st).
Proof.
  intros Hload Hsub.
  unfold resave_record_path, mbind, M_bind, try_except, lift_exc.
  rewrite Hload, Hsub. reflexivity.
Qed.

Lemma resave_record_path_returns record_path st st' :
  resave_record_path record_path st = (inr (), st') →
  ∃ c, load_class record_path = inr c ∧ issubclass_BaseRecord c = true.
Proof.
  intros Hrun.
  destruct (load_class record_path) as [e|c] eqn:Hload.
  - destruct (resave_record_path_unloadable record_path st e Hload) as (e' & He' & _).
    congruence.
  - exists c. split; [done|].
    destruct (issubclass_BaseRecord c) eqn:Hsub; [done|].
    rewrite (resave_record_path_not_a_record _ _ _ Hload Hsub) in Hrun. done.
Qed.

Lemma upgrade_step_returns inst upgrade_configs f v st st' :
  upgrade_step inst upgrade_configs f v st = (inr (), st') →
  ∀ uc paths record_path,
    dict_get v upgrade_configs = Some uc →
    cfg_resave_records uc = Some paths →
    record_path ∈ paths →
    ∃ c, load_class record_path = inr c ∧ issubclass_BaseRecord c = true.
Proof.
  intros Hrun uc paths p Huc Hpaths Hp.
  unfold upgrade_step in Hrun. rewrite Huc, Hpaths in Hrun.
  unfold mbind at 1, M_bind at 1 in Hrun.
  destruct (for_each paths resave_record_path st) as [[e|[]] st1] eqn:Hloop; [done|].
  destruct (for_each_returns _ _ _ _ Hloop p Hp) as (st0 & st2 & Hone).
  by eapply resave_record_path_returns.
Qed.

(** A run of [upgrade] that returns went through these stages. *)
Lemma upgrade_with_returns config_dict settings st st' :
  upgrade_with config_dict settings st = (inr (), st') →
  ∃ vrec f st1 upgrade_configs versions st2,
    resolve_from_version settings st = (inr (vrec, f), st1)
    ∧ f ≠ "v" +:+ version
    ∧ setting_config settings = Some upgrade_configs
    ∧ versions_to_process upgrade_configs f = inr versions
    ∧ for_each versions
        (upgrade_step (VersionUpgradeConfig_init config_dict) upgrade_configs f) st1
      = (inr (), st2)
    ∧ update_storage_version vrec ("v" +:+ version) st2 = (inr (), st').
Proof.
  intros Hrun. unfold upgrade_with, try_except in Hrun.
  destruct (upgrade_body config_dict settings st) as [[e|[]] st0] eqn:Hbody.
  { destruct (Py.is_BaseError _); done. }
  injection Hrun as ->.
  unfold upgrade_body, mbind, M_bind in Hbody.
  destruct (resolve_from_version settings st) as [[e|[vrec f]] st1] eqn:Hres; [done|].
  cbn [fst snd] in Hbody. unfold upgrade_from in Hbody.
  destruct (decide (f = "v" +:+ version)) as [|Hne]; [done|].
  destruct (setting_config settings) as [c|] eqn:Hc; [|done].
  destruct (negb (dict_contains f c)); [done|].
  unfold mbind, M_bind, lift_exc in Hbody.
  destruct (versions_to_process c f) as [e|versions] eqn:Hv; [done|].
  destruct (for_each versions _ st1) as [[e|[]] st2] eqn:Hloop; [done|].
  exists vrec, f, st1, c, versions, st2. repeat split; done.
Qed.

(** C10.  A record path whose class cannot be loaded, or whose class is not
    a subclass of [BaseRecord], makes the re-save step raise [UpgradeError]
    in the state it was reached in: no record of that path is saved.  The
    handler of [upgrade] raises a [BaseError] again as [UpgradeError].  Over
    a whole run, every [record.save] is made through a subclass of
    [BaseRecord], and a run that returns has loaded a subclass of
    [BaseRecord] for every record path of every version it went through. *)
Theorem resave_only_BaseRecord settings :
  (∀ record_path st e,
     load_class record_path = inl e →
     Py.exc_class e = Py.ClassNotFoundError →
     resave_record_path record_path st =
       (inl (Py.mkExc Py.UpgradeError ("Unknown Record type " +:+ record_path)), st))
  ∧ (∀ record_path st c,
       load_class record_path = inr c →
       issubclass_BaseRecord c = false →
       resave_record_path record_path st =
         (inl (Py.mkExc Py.UpgradeError
                 ("Only BaseRecord can be resaved, found: " +:+ class_str c)), st))
  ∧ (∀ st e st',
       upgrade_body CONFIG_v7_3 settings st = (inl e, st') →
       Py.is_BaseError (Py.exc_class e) = true →
       upgrade settings st =
         (inl (Py.mkExc Py.UpgradeError ("Error during upgrade: " +:+ Py.exc_msg e)),
          st'))
  ∧ (∀ st c record,
       EvSave c record ∈ trace (upgrade settings st).2 →
       EvSave c record ∈ trace st ∨ issubclass_BaseRecord c = true)
  ∧ (∀ st st',
       upgrade settings st = (inr (), st') →
       ∃ vrec f st1 upgrade_configs versions,
         resolve_from_version settings st = (inr (vrec, f), st1)
         ∧ setting_config settings = Some upgrade_configs
         ∧ versions_to_process upgrade_configs f = inr versions
         ∧ ∀ v uc paths record_path,
             v ∈ versions →
             dict_get v upgrade_configs = Some uc →
             cfg_resave_records uc = Some paths →
             record_path ∈ paths →
             ∃ c, load_class record_path = inr c ∧ issubclass_BaseRecord c = true).
Proof.
  split; [|split; [|split; [|split]]].
  - intros p st e Hload Hc.
    destruct (resave_record_path_unloadable p st e Hload) as (e' & He' & Hcls).
    by rewrite He', (Hcls Hc).
  - intros p st c. apply resave_record_path_not_a_record.
  - intros st e st' Hbody Hbase.
    unfold upgrade, upgrade_with, try_except. by rewrite Hbody, Hbase.
  - intros st. apply saves_upgrade_with.
  - intros st st' Hrun.
    destruct (upgrade_with_returns _ _ _ _ Hrun)
      as (vrec & f & st1 & c & versions & st2 & Hres & _ & Hc & Hv & Hloop & _).
    exists vrec, f, st1, c, versions. repeat split; try done.
    intros v uc paths p Hin Huc Hpaths Hp.
    destruct (for_each_returns _ _ _ _ Hloop v Hin) as (st0 & st3 & Hstep).
    by eapply upgrade_step_returns.
Qed.

End Resave.

(** ** The stored version after the run *)

Section Marker.

Context `{W : World}.


Lemma same_version_records_emit e : keeps same_version_records (emit e).
Proof. intros st. reflexivity. Qed.

Lemma same_version_records_lift_store op :
  preserves_version_records op → keeps same_version_records (lift_store op).
Proof.
  intros Hop st. unfold same_version_records, lift_store.
  specialize (Hop (storage st)). by destruct (op (storage st)).
Qed.

Lemma find_record_none type_filter (s : gmap string Row) e :
  find_record type_filter s = inl e →
  Py.exc_class e = Py.StorageNotFoundError →
  of_type type_filter s = ∅.
Proof.
  unfold find_record. intros Hfind Hcls.
  destruct (map_to_list (of_type type_filter s)) as [|[id row] [|? ?]] eqn:Hl.
  - by apply map_to_list_empty_iff.
  - done.
  - injection Hfind as <-. done.
Qed.

Lemma find_record_one type_filter (s : gmap string Row) r :
  find_record type_filter s = inr r →
  of_type type_filter s = {[ sr_id r := to_row r ]}.
Proof.
  unfold find_record. intros Hfind.
  destruct (map_to_list (of_type type_filter s)) as [|[id row] [|? ?]] eqn:Hl; try done.
  injection Hfind as <-.
  rewrite <- (list_to_map_to_list (of_type type_filter s)), Hl. cbn.
  rewrite insert_empty. by destruct row.
Qed.

Lemma find_record_singleton type_filter (s : gmap string Row) id row :
  of_type type_filter s = {[ id := row ]} →
  find_record type_filter s = inr (to_record id row).
Proof.
  intros Hs. unfold find_record. by rewrite Hs, map_to_list_singleton.
Qed.

Lemma get_update_existing_func_init config_dict ver f :
  get_update_existing_func (VersionUpgradeConfig_init config_dict) ver = Some f →
  ∃ entry, config_dict !! ver = Some entry
           ∧ update_existing_function_inst entry = Some f.
Proof.
  unfold get_update_existing_func, VersionUpgradeConfig_init, setup_config.
  cbn [config]. rewrite (right_id_L ∅ (∪)), lookup_fmap.
  destruct (config_dict !! ver) as [entry|]; cbn; [|done].
  intros Hf. by exists entry.
Qed.

(** The stored version after a run over any registry whose callables leave
    the records of the version type alone. *)
Lemma stored_version_after_upgrade_with config_dict settings st st' :
  (∀ record, preserves_version_records (save record)) →
  (∀ ver entry f,
     config_dict !! ver = Some entry →
     update_existing_function_inst entry = Some f →
     preserves_version_records (fn_run f)) →
  upgrade_with config_dict settings st = (inr (), st') →
  ∃ id,
    find_record RECORD_TYPE_ACAPY_VERSION (storage st')
    = inr (mkStorageRecord RECORD_TYPE_ACAPY_VERSION ("v" +:+ version) ∅ id)
    ∧ match find_record RECORD_TYPE_ACAPY_VERSION (storage st) with
      | inr old => id = sr_id old
      | inl e => id = new_record_id ∧ Py.exc_class e = Py.StorageNotFoundError
      end.
Proof.
  intros Hsave Hcall Hrun.
  destruct (upgrade_with_returns _ _ _ _ Hrun)
    as (vrec & f & st1 & c & versions & st2 & Hres & _ & _ & _ & Hloop & Hwrite).
  destruct (resolve_inv _ _ _ _ Hres) as [[Hst1 _] Hvrec].
  specialize (Hvrec vrec f eq_refl).
  assert (Hframe : same_version_records st1 st2).
  { pose proof (keeps_upgrade_steps same_version_records) as Hk.
    specialize (Hk ltac:(done)).
    specialize (Hk ltac:(unfold same_version_records; congruence)).
    specialize (Hk (λ t, same_version_records_emit (EvPrint t))).
    specialize (Hk (λ r, same_version_records_lift_store _ (Hsave r))).
    specialize (Hk (λ c0 r _, same_version_records_emit (EvSave c0 r))).
    specialize (Hk config_dict).
    assert (Hc : ∀ ver g,
      get_update_existing_func (VersionUpgradeConfig_init config_dict) ver = Some g →
      keeps same_version_records (emit (EvCall (fn_name g)))
      ∧ keeps same_version_records (lift_store (fn_run g))).
    { intros ver g Hg.
      destruct (get_update_existing_func_init _ _ _ Hg) as (entry & He & Hf).
      split; [apply same_version_records_emit|].
      apply same_version_records_lift_store. by eapply Hcall. }
    specialize (Hk Hc c f versions st1). by rewrite Hloop in Hk. }
  unfold same_version_records in Hframe. rewrite Hst1 in Hframe.
  unfold update_storage_version, lift_store in Hwrite.
  destruct vrec as [old|].
  - destruct Hvrec as [Hfind _]. rewrite Hfind. exists (sr_id old). split; [|done].
    apply find_record_one in Hfind.
    unfold update_record in Hwrite.
    destruct (storage st2 !! sr_id old) as [oldrec|] eqn:Hold; [|done].
    injection Hwrite as <-. cbn [storage].
    assert (Holdrec : of_type RECORD_TYPE_ACAPY_VERSION (storage st2) !! sr_id old
                      = Some (to_row old)).
    { by rewrite Hframe, Hfind, lookup_singleton_eq. }
    apply map_lookup_filter_Some in Holdrec as [Holdrec Htype].
    rewrite Hold in Holdrec. injection Holdrec as ->. cbn in Htype.
    apply (find_record_singleton _ _ (sr_id old)
             (mkRow RECORD_TYPE_ACAPY_VERSION ("v" +:+ version) ∅)).
    unfold of_type. rewrite map_filter_insert_True by (cbn; done).
    fold (of_type RECORD_TYPE_ACAPY_VERSION (storage st2)).
    rewrite Hframe, Hfind, insert_singleton_eq. cbn. by rewrite Htype.
  - destruct Hvrec as (_ & e & Hfind & Hcls). rewrite Hfind.
    exists new_record_id. split; [|done].
    apply find_record_none in Hfind; [|done].
    unfold add_record in Hwrite. cbn [sr_id] in Hwrite.
    destruct (storage st2 !! new_record_id) eqn:Hnew; [done|].
    injection Hwrite as <-. cbn [storage].
    apply (find_record_singleton _ _ new_record_id
             (mkRow RECORD_TYPE_ACAPY_VERSION ("v" +:+ version) ∅)).
    unfold of_type, to_row. cbn [sr_type sr_value sr_tags].
    rewrite map_filter_insert_True by (cbn; done).
    fold (of_type RECORD_TYPE_ACAPY_VERSION (storage st2)).
    by rewrite Hframe, Hfind, insert_empty.
Qed.

(** C3.  Where saving a record leaves the records of the version type
    alone, a run of [upgrade] that returns leaves exactly one record of that
    type, whose value is the running version: under the id of the record
    found at the start when there was one, which was updated where it is,
    and under the id of a new record when there was none. *)
Theorem stored_version_after_upgrade settings st st' :
  (∀ record, preserves_version_records (save record)) →
  upgrade settings st = (inr (), st') →
  ∃ id,
    find_record RECORD_TYPE_ACAPY_VERSION (storage st')
    = inr (mkStorageRecord RECORD_TYPE_ACAPY_VERSION ("v" +:+ version) ∅ id)
    ∧ match find_record RECORD_TYPE_ACAPY_VERSION (storage st) with
      | inr old => id = sr_id old
      | inl e => id = new_record_id ∧ Py.exc_class e = Py.StorageNotFoundError
      end.
Proof.
  intros Hsave Hrun.
  apply (stored_version_after_upgrade_with CONFIG_v7_3 settings st st'); try done.
  intros ver entry f Hentry Hf. unfold CONFIG_v7_3 in Hentry.
  apply lookup_singleton_Some in Hentry as [_ <-].
  injection Hf as <-. intros s. reflexivity.
Qed.

End Marker.

(** ** Runs of the command *)

Section Runs.

Import UpgradeDemo.

(** C1.  With the versions v0.7.0, v0.7.1 and v0.7.2 configured and v0.7.0
    stored, the loop goes through v0.7.2 alone: the index of the version to
    upgrade from, less one, is -1, and the slice from -1 is the last
    element.  With v0.7.2 stored it goes through v0.7.1 as well, a version
    before the one to upgrade from.  The versions at or after the stored one
    are all three in the first case and v0.7.2 alone in the second. *)
Theorem upgrade_loop_starts_one_before :
  versions_to_process three_versions "v0.7.0" = inr ["v0.7.2"]
  ∧ versions_at_or_after three_versions "v0.7.0" = inr ["v0.7.0"; "v0.7.1"; "v0.7.2"]
  ∧ (let run := upgrade (W := demo_world "0.7.3")
                  (mkSettings None (Some three_versions))
                  (demo_state "0.7.3" (Some "v0.7.0")) in
     run.1 = inr ()
     ∧ trace run.2 =
         [EvSave (W := demo_world "0.7.3") "V20CredExRecord" "y1";
          EvPrint "All records of <class 'V20CredExRecord'> successfully re-saved."])
  ∧ versions_to_process three_versions "v0.7.2" = inr ["v0.7.1"; "v0.7.2"]
  ∧ versions_at_or_after three_versions "v0.7.2" = inr ["v0.7.2"].
Proof. repeat split; vm_compute; reflexivity. Qed.

(** C2.  With v0.7.2 stored, the step of v0.7.3 asks for its existing
    records to be updated; no callable is registered for v0.7.3, and the run
    calls the one registered for v0.7.2 and returns.  With v0.7.1 stored, the
    step of v0.7.2 asks for the same; a callable is registered for v0.7.2,
    and the run raises [UpgradeError] for v0.7.1 without calling it. *)
Theorem upgrade_calls_the_callable_of_the_stored_version :
  get_update_existing_func (VersionUpgradeConfig_init CONFIG_v7_3) "v0.7.3" = None
  ∧ versions_to_process update_in_last "v0.7.2" = inr ["v0.7.1"; "v0.7.2"; "v0.7.3"]
  ∧ (let run := upgrade (W := demo_world "0.7.4")
                  (mkSettings None (Some update_in_last))
                  (demo_state "0.7.4" (Some "v0.7.2")) in
     run.1 = inr () ∧ trace run.2 = [EvCall "update_existing_records"])
  ∧ fn_name <$> get_update_existing_func (VersionUpgradeConfig_init CONFIG_v7_3) "v0.7.2"
    = Some "update_existing_records"
  ∧ versions_to_process update_in_registered "v0.7.1" = inr ["v0.7.2"]
  ∧ (let run := upgrade (W := demo_world "0.7.3")
                  (mkSettings None (Some update_in_registered))
                  (demo_state "0.7.3" (Some "v0.7.1")) in
     run.1 = inl (Py.mkExc Py.UpgradeError
                    "Error during upgrade: No update_existing_records function specified for v0.7.1")
     ∧ trace run.2 = []).
Proof. repeat split; vm_compute; reflexivity. Qed.

(** The version record is in the store and the setting names another
    version: the stored one is used. *)
Lemma upgrade_from_version_resolution_witness :
  (∃ st', resolve_from_version (W := world_0_7_3) (settings_three_from "v0.6.0")
            (demo_state "0.7.3" (Some "v0.7.0"))
          = (inr (Some stored_0_7_0, "v0.7.0"), st')
          ∧ only_printed (demo_state "0.7.3" (Some "v0.7.0")) st'
          ∧ upgrade_body CONFIG_v7_3 (settings_three_from "v0.6.0")
              (demo_state "0.7.3" (Some "v0.7.0"))
            = upgrade_from (VersionUpgradeConfig_init CONFIG_v7_3) settings_three
                (Some stored_0_7_0) "v0.7.0" st')
  ∧ upgrade (W := world_0_7_3) settings_three (demo_state "0.7.3" None)
    = (inl (Py.mkExc Py.UpgradeError
              "Error during upgrade: ACA-Py version not found in storage and no --from-version specified."),
       demo_state "0.7.3" None).
Proof.
  split.
  - apply (proj1 (upgrade_from_version_resolution (W := world_0_7_3)
                    (settings_three_from "v0.6.0")
                    (demo_state "0.7.3" (Some "v0.7.0"))) stored_0_7_0).
    vm_compute. reflexivity.
  - apply (proj2 (upgrade_from_version_resolution (W := world_0_7_3)
                    settings_three (demo_state "0.7.3" None))
             (Py.mkExc Py.StorageNotFoundError "Record not found")).
    + vm_compute. reflexivity.
    + reflexivity.
    + reflexivity.
Defined.

(** The stored version is the running one. *)
Lemma upgrade_rejects_same_or_unconfigured_witness :
  ∃ msg,
    upgrade (W := world_0_7_3) settings_three (demo_state "0.7.3" (Some "v0.7.3"))
    = (inl (Py.mkExc Py.UpgradeError msg), demo_state "0.7.3" (Some "v0.7.3"))
    ∧ only_printed (demo_state "0.7.3" (Some "v0.7.3"))
        (demo_state "0.7.3" (Some "v0.7.3")).
Proof.
  apply (upgrade_rejects_same_or_unconfigured (W := world_0_7_3)
           settings_three (demo_state "0.7.3" (Some "v0.7.3"))
           (Some (mkStorageRecord "acapy_version" "v0.7.3" ∅ "ver")) "v0.7.3").
  - vm_compute. reflexivity.
  - left. reflexivity.
Defined.

(** A path that names no class, and a path that names a class that is not a
    record. *)
Lemma resave_only_BaseRecord_witness :
  resave_record_path (W := world_0_7_3) "no.such.Class"
    (demo_state "0.7.3" (Some "v0.7.0"))
  = (inl (Py.mkExc Py.UpgradeError "Unknown Record type no.such.Class"),
     demo_state "0.7.3" (Some "v0.7.0"))
  ∧ resave_record_path (W := world_0_7_3)
      "aries_cloudagent.storage.record.StorageRecord"
      (demo_state "0.7.3" (Some "v0.7.0"))
    = (inl (Py.mkExc Py.UpgradeError
              "Only BaseRecord can be resaved, found: <class 'StorageRecord'>"),
       demo_state "0.7.3" (Some "v0.7.0")).
Proof.
  destruct (resave_only_BaseRecord (W := world_0_7_3) settings_three)
    as (Hunknown & Hother & _).
  split.
  - apply (Hunknown "no.such.Class" _
             (Py.mkExc Py.ClassNotFoundError "Class not found: no.such.Class"));
      reflexivity.
  - apply (Hother "aries_cloudagent.storage.record.StorageRecord" _ "StorageRecord");
      reflexivity.
Defined.

(** The version record v0.7.0 is in the store: it is updated where it is. *)
Lemma stored_version_after_upgrade_witness :
  ∃ id,
    find_record "acapy_version"
      (storage (upgrade (W := world_0_7_3) settings_three
                  (demo_state "0.7.3" (Some "v0.7.0"))).2)
    = inr (mkStorageRecord "acapy_version" "v0.7.3" ∅ id)
    ∧ id = "ver".
Proof.
  apply (stored_version_after_upgrade (W := world_0_7_3) settings_three
           (demo_state "0.7.3" (Some "v0.7.0"))).
  - intros record s. reflexivity.
  - vm_compute. reflexivity.
Defined.

(** No version record is in the store and the setting says v0.7.0: a new
    record is added. *)
Example stored_version_added :
  find_record "acapy_version"
    (storage (upgrade (W := world_0_7_3) (settings_three_from "v0.7.0")
                (demo_state "0.7.3" None)).2)
  = inr (mkStorageRecord "acapy_version" "v0.7.3" ∅ "0b1e").
Proof. vm_compute. reflexivity. Qed.

End Runs.

(** * Facts about the Linked-Data proof engine *)

Section EngineFacts.

Import LDProofs.

Context `{C : Collaborators}.

Implicit Types (document : Document) (suites : list Suite) (p : LDProof)
  (purpose : PurposeSpec) (loader : DocumentLoader).

Lemma purpose_for_call_no_options purpose :
  purpose_for_call purpose no_options = purpose.
Proof. by destruct purpose. Qed.

(** [validate] finds no fault exactly where the purpose check holds. *)
Lemma validate_checks purpose p document info loader :
  validate purpose p document info loader = None ↔ purpose_checks purpose p = true.
Proof.
  unfold validate, purpose_checks.
  destruct (challenge purpose) as [c|], (domain purpose) as [d|]; cbn;
    repeat case_bool_decide; cbn; split; try done;
    try (intros _; exfalso; naive_solver).
  all: exfalso; naive_solver.
Qed.

(** The result of one proof: it is verified exactly where the proof passes
    the checks. *)
Lemma verify_one_verified document suites purpose loader i p :
  ppr_verified (verify_one document suites purpose loader i p)
  = proof_checks loader suites purpose document p.
Proof.
  unfold verify_one, proof_checks, signature_checks, verifyProof, verify_data.
  cbn [fields].
  destruct (find_suite suites p) as [suite|]; [|done].
  destruct (resolve loader _) as [info|]; cbn [ppr_verified];
    [|by rewrite (bool_decide_eq_false_2 (is_Some None)), !andb_false_r
        by apply is_Some_None].
  rewrite (bool_decide_eq_true_2 (is_Some (Some info))), andb_true_r by done.
  pose proof (validate_checks purpose p document info loader) as Hv.
  assert (match validate purpose p document info loader with
          | Some _ => false | None => true end = purpose_checks purpose p) as ->.
  { destruct (validate purpose p document info loader);
      destruct (purpose_checks purpose p); try done.
    - discriminate (proj2 Hv eq_refl).
    - discriminate (proj1 Hv eq_refl). }
  f_equal.
  destruct (bool_decide (keyType (suite_keyPair suite) = suite_keyType suite));
    cbn [negb andb]; [|done].
  destruct (canonicalize loader (fields document) (metadata p)) as [c|]; [|done].
  by destruct (kp_verify (suite_keyPair suite) (digest suite c) (signatureValue p)).
Qed.

(** A proof is evaluated exactly where a suite of the list has its type. *)
Lemma verify_one_evaluated document suites purpose loader i p :
  evaluated (verify_one document suites purpose loader i p)
  = bool_decide (is_Some (find_suite suites p)).
Proof.
  unfold verify_one, evaluated, verifyProof, verify_data. cbn [fields].
  destruct (find_suite suites p) as [suite|];
    [|by rewrite bool_decide_eq_false_2 by apply is_Some_None].
  rewrite (bool_decide_eq_true_2 (is_Some (Some suite))) by done. cbn [ppr_error].
  destruct (negb _); [done|].
  destruct (canonicalize loader _ _); [|done].
  destruct (kp_verify _ _ _); [|done].
  destruct (resolve loader _) as [info|]; [|done].
  unfold validate. repeat (case_match; try done).
Qed.


Lemma verify_each_exists check i proofs (matched : LDProof → bool) :
  (∀ j p, evaluated (check j p) = matched p) →
  existsb evaluated (verify_each check i proofs) = true
  ↔ ∃ p, p ∈ proofs ∧ matched p = true.
Proof.
  intros Hcheck. revert i. induction proofs as [|p proofs IH]; intros i; cbn.
  - split; [done|]. intros (p & Hp & _). by apply elem_of_nil in Hp.
  - rewrite orb_true_iff, IH, Hcheck. split.
    + intros [Hp|(q & Hq & Hm)]; [exists p; split; [left|done]|].
      exists q. split; [by right|done].
    + intros (q & Hq & Hm). apply elem_of_cons in Hq as [->|Hq]; [by left|].
      right. eauto.
Qed.

Lemma verify_each_forall check i proofs (matched passes : LDProof → bool) :
  (∀ j p, evaluated (check j p) = matched p) →
  (∀ j p, ppr_verified (check j p) = passes p) →
  forallb (λ result, implb (evaluated result) (ppr_verified result))
    (verify_each check i proofs) = true
  ↔ ∀ p, p ∈ proofs → matched p = true → passes p = true.
Proof.
  intros Hmatched Hpasses. revert i.
  induction proofs as [|p proofs IH]; intros i; cbn.
  - split; [|done]. intros _ p Hp. by apply elem_of_nil in Hp.
  - rewrite andb_true_iff, IH, Hmatched, Hpasses. split.
    + intros [Hp Hrest] q Hq Hm. apply elem_of_cons in Hq as [->|Hq]; [|by apply Hrest].
      rewrite Hm in Hp. exact Hp.
    + intros Hall. split.
      * destruct (matched p) eqn:Hm; [|done]. cbn. apply Hall; [left|done].
      * intros q Hq. apply Hall. by right.
Qed.


(** The overall result: verified exactly where a proof of the document has a
    suite in the list and every such proof passes the checks. *)
Lemma verify_verified document suites purpose loader options r :
  verify document suites purpose loader options = inr r →
  verified r = true ↔
  (∃ p, p ∈ proof document ∧ is_Some (find_suite suites p))
  ∧ ∀ p, p ∈ proof document → is_Some (find_suite suites p) →
      proof_checks loader suites (purpose_for_call purpose options) document p = true.
Proof.
  intros [= <-]. cbn [verified]. rewrite andb_true_iff.
  rewrite (verify_each_exists _ _ _
             (λ p, bool_decide (is_Some (find_suite suites p))))
    by (intros; apply verify_one_evaluated).
  rewrite (verify_each_forall _ _ _
             (λ p, bool_decide (is_Some (find_suite suites p)))
             (proof_checks loader suites (purpose_for_call purpose options) document))
    by (intros; first [apply verify_one_evaluated|apply verify_one_verified]).
  split.
  - intros [(p & Hp & Hm) Hall]. split.
    + exists p. split; [done|]. by apply bool_decide_eq_true_1 in Hm.
    + intros q Hq Hm'. apply Hall; [done|]. by apply bool_decide_eq_true_2.
  - intros [(p & Hp & Hm) Hall]. split.
    + exists p. split; [done|]. by apply bool_decide_eq_true_2.
    + intros q Hq Hm'. apply Hall; [done|]. by apply bool_decide_eq_true_1 in Hm'.
Qed.

End EngineFacts.

(** ** Signing, verifying, tampering *)

Section Orchestrator.

Import LDProofs.

Context `{C : Collaborators}.

Implicit Types (document : Document) (suites : list Suite) (p : LDProof)
  (purpose : PurposeSpec) (loader : DocumentLoader).

Lemma purpose_checks_built purpose now verificationMethod type signature :
  purpose_checks purpose
    (mkLDProof (buildProofOptions purpose now verificationMethod type) signature)
  = true.
Proof.
  unfold purpose_checks, buildProofOptions. cbn.
  rewrite bool_decide_eq_true_2 by done.
  destruct (challenge purpose), (domain purpose); cbn;
    rewrite ?bool_decide_eq_true_2 by done; done.
Qed.

Lemma find_suite_singleton suite p :
  po_type (metadata p) = signatureType suite → find_suite [suite] p = Some suite.
Proof.
  intros Htype. unfold find_suite. cbn.
  by rewrite bool_decide_eq_true_2.
Qed.

Lemma find_suite_singleton_None suite p :
  po_type (metadata p) ≠ signatureType suite → find_suite [suite] p = None.
Proof.
  intros Htype. unfold find_suite. cbn.
  by rewrite bool_decide_eq_false_2.
Qed.

(** C4.  A document signed by a suite with a matching key pair verifies
    against that suite and the same purpose, whatever proofs of other
    suites it carries, where the loader dereferences the verification
    method the new proof names. *)
Theorem sign_then_verify document suite purpose keyPair loader now signed :
  matching suite keyPair →
  is_Some (resolve loader (verificationMethod_for suite keyPair)) →
  sign document suite purpose keyPair loader now = inr signed →
  ∃ r, verify signed [suite] purpose loader no_options = inr r ∧ verified r = true.
Proof.
  intros (HkeyType & HsuiteKey & Haccept) Hresolve Hsign.
  unfold sign in Hsign.
  set (others := filter _ (proof document)) in Hsign.
  set (options := buildProofOptions purpose now _ _) in Hsign.
  unfold createProof, verify_data in Hsign. cbn [fields] in Hsign.
  rewrite bool_decide_eq_true_2 in Hsign by done. cbn [negb] in Hsign.
  destruct (canonicalize loader (fields document) options) as [c|] eqn:Hc; [|done].
  destruct (kp_sign keyPair (digest suite c)) as [e|signature] eqn:Hsig; [done|].
  injection Hsign as <-.
  eexists. split; [reflexivity|].
  apply (verify_verified _ _ _ _ _ _ eq_refl). cbn [proof]. split.
  - exists (mkLDProof options signature). split.
    + apply elem_of_app. right. left.
    + by rewrite find_suite_singleton.
  - intros p Hp Hmatched. apply elem_of_app in Hp as [Hp|Hp].
    + apply list_elem_of_filter in Hp as [Hother _].
      rewrite (find_suite_singleton_None _ _ Hother) in Hmatched.
      by destruct Hmatched.
    + apply list_elem_of_singleton in Hp as ->.
      rewrite purpose_for_call_no_options. unfold proof_checks. subst options.
      rewrite purpose_checks_built, andb_true_r.
      rewrite (bool_decide_eq_true_2 _ Hresolve), andb_true_r.
      unfold signature_checks. rewrite find_suite_singleton by done.
      cbn [fields metadata signatureValue]. rewrite Hc.
      rewrite bool_decide_eq_true_2 by done. cbn. by apply Haccept.
Qed.

(** A change of the fields under which a proof that passed gets another
    canonical form, or none, turns a verified document into one that is
    not. *)
Lemma verify_after_change document suites purpose loader options fields' r :
  (∀ suite, suite ∈ suites → binding suite) →
  verify document suites purpose loader options = inr r →
  verified r = true →
  (∀ p canonical,
     p ∈ proof document →
     canonicalize loader (fields document) (metadata p) = Some canonical →
     canonicalize loader fields' (metadata p) ≠ Some canonical) →
  ∃ r', verify (mkDocument fields' (proof document)) suites purpose loader options
        = inr r'
        ∧ verified r' = false.
Proof.
  intros Hbinding Hrun Hr Hchange.
  eexists. split; [reflexivity|].
  match goal with |- ?v = false => destruct v eqn:Hv; [exfalso|done] end.
  apply (verify_verified _ _ _ _ _ _ Hrun) in Hr as [(p & Hp & Hm) Hall].
  apply (verify_verified _ _ _ _ _ _ eq_refl) in Hv as [_ Hall'].
  cbn [proof] in Hall'.
  pose proof (Hall p Hp Hm) as Hs. pose proof (Hall' p Hp Hm) as Hs'.
  unfold proof_checks in Hs, Hs'.
  apply andb_true_iff in Hs as [Hs _]. apply andb_true_iff in Hs as [Hs _].
  apply andb_true_iff in Hs' as [Hs' _]. apply andb_true_iff in Hs' as [Hs' _].
  unfold signature_checks in Hs, Hs'. cbn [fields] in Hs'.
  destruct (find_suite suites p) as [suite|] eqn:Hfind; [|done].
  apply andb_true_iff in Hs as [_ Hs]. apply andb_true_iff in Hs' as [_ Hs'].
  destruct (canonicalize loader (fields document) (metadata p)) as [c|] eqn:Hc;
    [|done].
  destruct (canonicalize loader fields' (metadata p)) as [c'|] eqn:Hc'; [|done].
  apply find_some in Hfind as [Hin _]. apply list_elem_of_In in Hin.
  destruct (Hbinding suite Hin) as [Hdigest Hone].
  apply (Hchange p c Hp Hc). rewrite Hc'. f_equal.
  apply Hdigest. by eapply Hone.
Qed.

(** C5.  A document that verifies against a suite, with a field outside the
    proof block given another value so that the canonical form changes, does
    not verify against that suite any more: [verify] returns a result whose
    [verified] is false. *)
Theorem changed_field_not_verified document suite purpose loader options key value r :
  binding suite →
  verify document [suite] purpose loader options = inr r →
  verified r = true →
  key ∈ (fields document).*1 →
  canonical_form_changes loader document (set_field key value (fields document)) →
  ∃ r', verify (with_field key value document) [suite] purpose loader options = inr r'
        ∧ verified r' = false.
Proof.
  intros Hbinding Hrun Hr _ Hchange.
  eapply verify_after_change; eauto.
  { intros s Hs. by apply list_elem_of_singleton in Hs as ->. }
  intros p c Hp Hc Hc'.
  destruct (Hchange p Hp) as (c1 & c2 & Hc1 & Hc2 & Hdiff). congruence.
Qed.




End Orchestrator.

(** ** The orchestrator at work *)

Section EngineRuns.

Import LDProofs LDDemo.

(** The key pair and the suite of the small engine. *)
Lemma demo_matching : matching demo_suite demo_keyPair.
Proof.
  repeat split. intros data signature [= <-]. cbn.
  by apply bool_decide_eq_true_2.
Qed.

Lemma demo_binding : binding demo_suite.
Proof.
  split.
  - intros a b Heq. cbn in Heq. by injection Heq.
  - intros data data' signature H1 H2. cbn in H1, H2.
    apply bool_decide_eq_true_1 in H1, H2. subst signature. by injection H2.
Qed.

(** The four verifications of the tests, in the small engine. *)
Example test_verify_ld_proofs :
  verify signed_document [demo_suite] assertion demo_loader no_options
  = inr verified_result.
Proof. vm_compute. reflexivity. Qed.

Example test_verify_ld_proofs_not_verified_bad_signature :
  sum_map id verified
    (verify bad_signed_document [demo_suite] assertion demo_loader no_options)
  = inr false.
Proof. vm_compute. reflexivity. Qed.

Example test_verify_ld_proofs_not_verified_unsigned_statement :
  sum_map id verified
    (verify (with_field "unsigned_claim" (Leaf "oops") signed_document)
       [demo_suite] assertion demo_loader no_options)
  = inr false.
Proof. vm_compute. reflexivity. Qed.

Example test_verify_ld_proofs_not_verified_changed_statement :
  sum_map id verified
    (verify (with_field "email" (Leaf "someOtherEmail@example.com") signed_document)
       [demo_suite] assertion demo_loader no_options)
  = inr false.
Proof. vm_compute. reflexivity. Qed.

(** A field under a key that is no term of the context: the document has no
    canonical form, which the result of the proof records. *)
Example verify_added_term :
  verify (with_field "foo" (Leaf "bar") signed_document)
    [demo_suite] assertion demo_loader no_options
  = inr (mkVerificationResult false
           [mkPerProofResult "Ed25519Signature2020" demo_vm false
              (Some CanonicalizationError)]).
Proof. vm_compute. reflexivity. Qed.

(** A verification method the loader does not know. *)
Example verify_unknown_verification_method :
  verify unknown_vm_document [demo_suite] assertion demo_loader no_options
  = inr (mkVerificationResult false
           [mkPerProofResult "Ed25519Signature2020" "did:key:unknown" false
              (Some SignatureMismatchError)]).
Proof. vm_compute. reflexivity. Qed.

(** The proof of a suite that is not in the list is recorded and
    tolerated. *)
Example verify_other_proof :
  verify signed_document_with_other_proof [demo_suite] assertion demo_loader
    no_options
  = inr (mkVerificationResult true
           [mkPerProofResult "BbsBlsSignature2020" demo_vm false
              (Some UnsupportedSuiteError);
            mkPerProofResult "Ed25519Signature2020" demo_vm true None]).
Proof. vm_compute. reflexivity. Qed.

(** The document of the scenario with the proof of another suite, signed
    and verified. *)
Lemma sign_then_verify_witness :
  ∃ r, verify signed_document_with_other_proof [demo_suite] assertion demo_loader
         no_options = inr r
       ∧ verified r = true.
Proof.
  apply (sign_then_verify demo_document_with_other_proof demo_suite assertion
           demo_keyPair demo_loader demo_now signed_document_with_other_proof).
  - apply demo_matching.
  - cbn. eauto.
  - vm_compute. reflexivity.
Defined.

(** The signed document with another email. *)
Lemma changed_field_not_verified_witness :
  ∃ r', verify (with_field "email" (Leaf "b@example.com") signed_document)
          [demo_suite] assertion demo_loader no_options
        = inr r'
        ∧ verified r' = false.
Proof.
  apply (changed_field_not_verified signed_document demo_suite assertion
           demo_loader no_options "email" (Leaf "b@example.com") verified_result).
  - apply demo_binding.
  - vm_compute. reflexivity.
  - reflexivity.
  - cbn. left.
  - intros p Hp. apply list_elem_of_singleton in Hp as ->.
    eexists _, _. split; [reflexivity|]. split; [reflexivity|]. discriminate.
Defined.



End EngineRuns.

(** * More on the upgrade command *)

(** ** The sort key of a version *)

Section VersionKey.

Import Upgrade.

Lemma digit_not_dot c : is_Some (Py.digit c) → c ≠ "."%char.
Proof. intros [d Hd] ->. vm_compute in Hd. discriminate Hd. Qed.

Lemma digit_not_underscore c : is_Some (Py.digit c) → c ≠ "_"%char.
Proof. intros [d Hd] ->. vm_compute in Hd. discriminate Hd. Qed.

Lemma digit_not_space c : is_Some (Py.digit c) → Py.is_space c = false.
Proof.
  intros [d Hd]. unfold Py.digit, Py.is_space in *.
  destruct (_ && _) eqn:Hrange in Hd; [|done].
  apply andb_true_iff in Hrange as [H1 H2].
  apply Z.leb_le in H1, H2.
  rewrite !orb_false_iff, andb_false_iff, !Z.leb_gt, !Z.eqb_neq. lia.
Qed.

Lemma all_digits_cons c s :
  Py.all_digits (String c s) = true ↔ is_Some (Py.digit c) ∧ Py.all_digits s = true.
Proof. cbn. by rewrite andb_true_iff, bool_decide_eq_true. Qed.

(** A numeral is one field for [split], and a numeral before a dot is the
    first field. *)
Lemma split_numeral s : Py.all_digits s = true → Py.split "." s = [s].
Proof.
  induction s as [|c s IH]; [done|].
  rewrite all_digits_cons. intros [Hc Hs]. cbn.
  rewrite decide_False by by apply digit_not_dot. by rewrite IH.
Qed.

Lemma split_numeral_dot s rest :
  Py.all_digits s = true →
  Py.split "." (s +:+ String "." rest) = s :: Py.split "." rest.
Proof.
  induction s as [|c s IH]; [done|].
  rewrite all_digits_cons. intros [Hc Hs].
  change (String c s +:+ String "." rest) with (String c (s +:+ String "." rest)).
  cbn [Py.split].
  rewrite decide_False by by apply digit_not_dot. by rewrite IH.
Qed.

Lemma rev_app_rev_app s1 s2 s3 :
  String.rev_app (String.rev_app s1 s2) s3 = String.rev_app s2 (s1 +:+ s3).
Proof.
  revert s2 s3. induction s1 as [|a s1 IH]; intros s2 s3; [done|].
  cbn [String.rev_app]. by rewrite IH.
Qed.

Lemma string_app_empty s : s +:+ "" = s.
Proof.
  induction s as [|a s IH]; [done|].
  change (String a s +:+ "") with (String a (s +:+ "")). by rewrite IH.
Qed.

Lemma all_digits_rev_app s1 s2 :
  Py.all_digits (String.rev_app s1 s2) = Py.all_digits s1 && Py.all_digits s2.
Proof.
  revert s2. induction s1 as [|a s1 IH]; intros s2; [done|].
  cbn. rewrite IH. cbn. by destruct (bool_decide _), (Py.all_digits s1).
Qed.

Lemma lstrip_all_digits s : Py.all_digits s = true → Py.lstrip s = s.
Proof.
  destruct s as [|c s]; [done|]. rewrite all_digits_cons. intros [Hc _].
  cbn. by rewrite digit_not_space.
Qed.

Lemma strip_numeral s : Py.all_digits s = true → Py.strip s = s.
Proof.
  intros Hs. unfold Py.strip. rewrite (lstrip_all_digits s Hs).
  rewrite lstrip_all_digits.
  - unfold String.rev. by rewrite rev_app_rev_app, string_app_empty.
  - unfold String.rev. by rewrite all_digits_rev_app, Hs.
Qed.

Lemma digits_numeral s acc prev :
  Py.all_digits s = true →
  s ≠ "" ∨ prev = true →
  Py.digits acc prev s = Some (Py.numeral_value acc s).
Proof.
  revert acc prev. induction s as [|c s IH]; intros acc prev Hs Hne.
  - destruct Hne as [?| ->]; done.
  - apply all_digits_cons in Hs as [Hc Hs]. cbn.
    rewrite decide_False by by apply digit_not_underscore.
    destruct Hc as [d Hd]. rewrite Hd. cbn. apply IH; auto.
Qed.

Lemma int_opt_unsigned c r :
  is_Some (Py.digit c) →
  match String c r with
  | String "+" r' => Py.digits 0 false r'
  | String "-" r' => Z.opp <$> Py.digits 0 false r'
  | r' => Py.digits 0 false r'
  end = Py.digits 0 false (String c r).
Proof.
  intros [d Hd].
  destruct c as [[] [] [] [] [] [] [] []]; vm_compute in Hd; try discriminate Hd;
    reflexivity.
Qed.

(** [int] reads a numeral as the number it writes. *)
Lemma int_numeral s : Py.numeral s → Py.int s = inr (Py.numeral_value 0 s).
Proof.
  intros [Hne Hs]. unfold Py.int, Py.int_opt. rewrite (strip_numeral s Hs).
  destruct s as [|c r]; [done|].
  rewrite int_opt_unsigned by by apply all_digits_cons in Hs as [? _].
  rewrite (digits_numeral _ 0 false Hs); auto.
Qed.

(** The key of a version written as one character, not a dot, and three
    numerals between dots is the triple of the numbers the numerals write:
    the first character is dropped whatever it is, and leading zeros do not
    matter. *)
Theorem version_key_well_formed c major minor patch :
  c ≠ "."%char →
  Py.numeral major → Py.numeral minor → Py.numeral patch →
  version_key (String c (major +:+ String "." (minor +:+ String "." patch)))
  = inr (Py.numeral_value 0 major, Py.numeral_value 0 minor,
         Py.numeral_value 0 patch).
Proof.
  intros Hc Hmajor Hminor Hpatch. unfold version_key.
  cbn [Py.split]. rewrite decide_False by done.
  rewrite split_numeral_dot by apply Hmajor.
  rewrite split_numeral_dot by apply Hminor.
  rewrite split_numeral by apply Hpatch.
  cbn [Py.getitem lookup list_lookup exc_bind Py.tail].
  rewrite (int_numeral major Hmajor). cbn [exc_bind].
  rewrite (int_numeral minor Hminor). cbn [exc_bind].
  rewrite (int_numeral patch Hpatch). reflexivity.
Qed.

(** The key raises [ValueError] or [IndexError] and nothing else. *)
Lemma version_key_error x e :
  version_key x = inl e →
  Py.exc_class e = Py.ValueError ∨ Py.exc_class e = Py.IndexError.
Proof.
  unfold version_key, Py.getitem, Py.int.
  repeat (match goal with
          | |- context [match ?o with _ => _ end] => destruct o
          end; cbn [exc_bind]);
    intros [= <-]; cbn; auto.
Qed.

Lemma exc_map_inl {A B} (f : A → Py.Exc + B) l :
  (∃ x e, x ∈ l ∧ f x = inl e) →
  ∃ x e, x ∈ l ∧ f x = inl e ∧ exc_map f l = inl e.
Proof.
  induction l as [|y l IH]; intros (x & e & Hx & Hfx).
  - by apply elem_of_nil in Hx.
  - cbn. destruct (f y) as [ey|b] eqn:Hy.
    + exists y, ey. split; [left|]. done.
    + cbn. apply elem_of_cons in Hx as [->|Hx]; [congruence|].
      destruct IH as (x' & e' & Hx' & Hfx' & ->); [eauto|].
      exists x', e'. split; [by right|]. done.
Qed.

End VersionKey.

(** ** The registry of callables *)

Section Registry.

Import Upgrade.

(** [setup_config] followed by [get_update_existing_func]: the versions of
    the dictionary answer with their function, or with [None] when the key
    is absent, whatever was set up for them before; the other versions answer
    as they did. *)
Theorem get_update_existing_func_setup self config_dict ver :
  get_update_existing_func (setup_config self config_dict) ver
  = match config_dict !! ver with
    | Some entry => update_existing_function_inst entry
    | None => get_update_existing_func self ver
    end.
Proof.
  unfold get_update_existing_func, setup_config. cbn [config].
  rewrite lookup_union, lookup_fmap.
  destruct (config_dict !! ver) as [entry|]; cbn.
  - by destruct (config self !! ver).
  - by destruct (config self !! ver).
Qed.

End Registry.

(** ** Which versions the loop goes through *)

Section Loop.

Import Upgrade.

Lemma index_opt_elem_of (x : string) l : x ∈ l → is_Some (Py.index_opt x l).
Proof.
  induction l as [|y l IH]; intros Hx; [by apply elem_of_nil in Hx|].
  cbn. destruct (decide (y = x)); [eauto|].
  apply elem_of_cons in Hx as [?|Hx]; [congruence|].
  destruct (IH Hx) as [i ->]. cbn. eauto.
Qed.

Lemma dict_get_elem_of {V} k (d : list (string * V)) :
  k ∈ d.*1 ↔ is_Some (dict_get k d).
Proof.
  induction d as [|[k' v] d IH]; cbn.
  - split; [by intros ?%elem_of_nil|by intros [? ?]].
  - rewrite elem_of_cons, IH. destruct (decide (k' = k)) as [->|Hne].
    + split; eauto.
    + split; [by intros [?|?]|by right].
Qed.

Lemma dict_contains_elem_of {V} k (d : list (string * V)) :
  dict_contains k d = true ↔ k ∈ d.*1.
Proof. unfold dict_contains. by rewrite bool_decide_eq_true, dict_get_elem_of. Qed.

Lemma exc_map_returns {A B} (f : A → Py.Exc + B) l :
  (∀ x, x ∈ l → ∃ y, f x = inr y) → ∃ ys, exc_map f l = inr ys.
Proof.
  induction l as [|x l IH]; intros Hall; cbn; [eauto|].
  destruct (Hall x) as [y ->]; [left|]. cbn.
  destruct IH as [ys ->]; [|cbn; eauto].
  intros z Hz. apply Hall. by right.
Qed.

(** With every configured version well formed and the version to upgrade
    from among them, the loop has its list of versions. *)
Lemma versions_to_process_returns upgrade_configs upgrade_from_version :
  (∀ v, v ∈ upgrade_configs.*1 → ∃ k, version_key v = inr k) →
  upgrade_from_version ∈ upgrade_configs.*1 →
  ∃ versions, versions_to_process upgrade_configs upgrade_from_version = inr versions.
Proof.
  intros Hkeys Hfrom. unfold versions_to_process, sorted_versions.
  destruct (exc_map_returns version_key _ Hkeys) as [keys Hk]. rewrite Hk. cbn.
  unfold Py.index.
  destruct (index_opt_elem_of upgrade_from_version
              (Py.sort_by_key (zip keys upgrade_configs.*1)).*2) as [i ->];
    [|cbn; eauto].
  rewrite sort_by_key_perm, snd_zip; [done|].
  apply exc_map_inr in Hk. by rewrite (Forall2_length _ _ _ Hk).
Qed.

(** The loop goes through configured versions only. *)
Lemma versions_to_process_configured upgrade_configs upgrade_from_version versions :
  versions_to_process upgrade_configs upgrade_from_version = inr versions →
  versions ⊆ upgrade_configs.*1.
Proof.
  unfold versions_to_process, sorted_versions.
  destruct (exc_map version_key upgrade_configs.*1) as [e|keys] eqn:Hkeys; cbn; [done|].
  destruct (Py.index _ _) as [e|i]; cbn; [done|].
  intros [= <-].
  destruct (slice_from_drop (Py.sort_by_key (zip keys upgrade_configs.*1)).*2 (i - 1))
    as [n ->].
  etrans; [apply subseteq_drop|].
  rewrite sort_by_key_perm, snd_zip; [done|].
  apply exc_map_inr in Hkeys. by rewrite (Forall2_length _ _ _ Hkeys).
Qed.

(** With one version configured, the loop goes through that version. *)
Theorem versions_to_process_single v upgrade_config k :
  version_key v = inr k →
  versions_to_process [(v, upgrade_config)] v = inr [v].
Proof.
  intros Hk. unfold versions_to_process, sorted_versions. cbn.
  rewrite Hk. cbn. unfold Py.index. cbn. by rewrite decide_True.
Qed.

End Loop.

(** ** The steps outside the store *)

Section Lifecycle.

Import Storage Upgrade.

Context `{W : World}.

Implicit Types (st : State) (settings : Settings) (session : Session).

Lemma step_run outcome st :
  step outcome st
  = (match outcome with Some e => inl e | None => inr () end, st).
Proof. by destruct outcome. Qed.

(** A session block, step by step. *)
Lemma with_session_run {A} session (body : M A) st :
  with_session session body st
  = match session_enter session with
    | Some e => (inl e, st)
    | None =>
        match session_exit session with
        | Some e => (inl e, (body st).2)
        | None => body st
        end
    end.
Proof.
  unfold with_session, mbind, M_bind. rewrite step_run.
  destruct (session_enter session); [done|].
  destruct (body st) as [r st1]. by destruct (session_exit session).
Qed.

Lemma bind_raises {A B} (m : M A) (k : A → M B) st e st' :
  (m ≫= k) st = (inl e, st') →
  m st = (inl e, st') ∨ ∃ a st1, m st = (inr a, st1) ∧ k a st1 = (inl e, st').
Proof.
  unfold mbind, M_bind. destruct (m st) as [[e1|a] st1].
  - intros [= -> ->]. by left.
  - intros Hk. right. eauto.
Qed.

Lemma bind_returns {A B} (m : M A) (k : A → M B) st b st' :
  (m ≫= k) st = (inr b, st') →
  ∃ a st1, m st = (inr a, st1) ∧ k a st1 = (inr b, st').
Proof.
  unfold mbind, M_bind. destruct (m st) as [[e1|a] st1]; [done|]. eauto.
Qed.

Lemma bind_run {A B} (m : M A) (k : A → M B) st a st1 :
  m st = (inr a, st1) → (m ≫= k) st = k a st1.
Proof. intros Hm. unfold mbind, M_bind. by rewrite Hm. Qed.

Lemma bind_ext {A B} (m m' : M A) (k k' : A → M B) st :
  m st = m' st → (∀ a st1, k a st1 = k' a st1) → (m ≫= k) st = (m' ≫= k') st.
Proof.
  intros Hm Hk. unfold mbind, M_bind. rewrite Hm.
  by destruct (m' st) as [[e|a] st1].
Qed.

Lemma for_each_ext {A} (l : list A) (body body' : A → M unit) st :
  (∀ x st1, body x st1 = body' x st1) →
  for_each l body st = for_each l body' st.
Proof.
  intros Hbody. revert st. induction l as [|x l IH]; intros st; [done|].
  cbn [for_each]. apply bind_ext; [apply Hbody|]. intros _ st1. apply IH.
Qed.

Lemma for_each_imap {A B} (f : nat → A → B) (l : list A) (body : A → M unit)
    (body' : B → M unit) st :
  (∀ i x st1, body' (f i x) st1 = body x st1) →
  for_each (imap f l) body' st = for_each l body st.
Proof.
  revert f st. induction l as [|x l IH]; intros f st Hbody; [done|].
  cbn [imap for_each]. apply bind_ext; [apply Hbody|]. intros _ st1.
  apply IH. intros i y st2. apply Hbody.
Qed.

Lemma with_session_opened {A} (body : M A) st :
  with_session opened body st = body st.
Proof. by rewrite with_session_run. Qed.

Lemma resave_record_path_in_opened record_path st :
  resave_record_path_in opened record_path st = resave_record_path record_path st.
Proof.
  unfold resave_record_path_in, resave_record_path. apply bind_ext; [done|].
  intros c st1. destruct (negb _); [done|]. apply with_session_opened.
Qed.

Lemma upgrade_step_in_all_well inst upgrade_configs f v st :
  upgrade_step_in all_well inst upgrade_configs f v st
  = upgrade_step inst upgrade_configs f v st.
Proof.
  unfold upgrade_step_in, upgrade_step.
  destruct (dict_get v upgrade_configs) as [uc|]; [|done].
  apply bind_ext; [|done].
  destruct (cfg_resave_records uc) as [paths|]; [|done].
  apply for_each_imap. intros i path st1. apply resave_record_path_in_opened.
Qed.

Lemma upgrade_from_in_all_well inst settings vrec f st :
  upgrade_from_in all_well inst settings vrec f st
  = upgrade_from inst settings vrec f st.
Proof.
  unfold upgrade_from_in, upgrade_from.
  destruct (decide _); [done|].
  destruct (setting_config settings) as [c|]; [|done].
  destruct (negb _); [done|].
  apply bind_ext; [done|]. intros versions st1.
  apply bind_ext; [apply for_each_ext; intros; apply upgrade_step_in_all_well|].
  intros _ st2. rewrite with_session_opened. cbn [write_session all_well].
  unfold mbind, M_bind. by rewrite step_run.
Qed.

(** The run in which nothing outside the store fails is the run of
    [upgrade]. *)
Lemma upgrade_coroutine_all_well settings st :
  upgrade_coroutine all_well settings st = upgrade settings st.
Proof.
  unfold upgrade_coroutine, upgrade, upgrade_with.
  unfold mbind at 1, M_bind at 1. rewrite step_run. cbn [build_context all_well].
  unfold try_except.
  assert (upgrade_coroutine_body all_well CONFIG_v7_3 settings st
          = upgrade_body CONFIG_v7_3 settings st) as ->; [|done].
  unfold upgrade_coroutine_body, upgrade_body.
  unfold mbind at 1, M_bind at 1, lift_store. cbn [wallet_config all_well].
  destruct st as [s t]. cbn [storage trace].
  apply bind_ext.
  - unfold resolve_from_version_in. rewrite with_session_opened.
    cbn [lookup_session all_well]. unfold mbind, M_bind. by rewrite step_run.
  - intros [vrec f] st1. cbn [fst snd].
    unfold mbind, M_bind. rewrite upgrade_from_in_all_well.
    by destruct (upgrade_from _ settings vrec f st1) as [[e|[]] st2].
Qed.

(** *** Relations the steps keep *)

Variable R : State → State → Prop.
Hypothesis R_refl : ∀ st, R st st.
Hypothesis R_trans : ∀ st1 st2 st3, R st1 st2 → R st2 st3 → R st1 st3.

Lemma keeps_step outcome : keeps R (step outcome).
Proof. intros st. rewrite step_run. apply R_refl. Qed.

Lemma keeps_with_session {A} session (body : M A) :
  keeps R body → keeps R (with_session session body).
Proof.
  intros Hbody st. rewrite with_session_run.
  destruct (session_enter session); [apply R_refl|].
  destruct (session_exit session); apply Hbody.
Qed.

Hypothesis R_print : ∀ text, keeps R (print text).
Hypothesis R_save : ∀ record, keeps R (lift_store (save record)).
Hypothesis R_emit_save : ∀ c record, keeps R (emit (EvSave c record)).

Lemma keeps_resolve_in session settings :
  keeps R (resolve_from_version_in session settings).
Proof.
  apply keeps_with_session, (keeps_bind _ R_trans); [apply keeps_step|].
  intros _. by apply keeps_resolve.
Qed.

Lemma keeps_resave_record_path_in session record_path :
  keeps R (resave_record_path_in session record_path).
Proof.
  unfold resave_record_path_in. apply (keeps_bind _ R_trans).
  - apply (keeps_try_except _ R_trans); [by apply keeps_lift_exc|].
    intros; by apply keeps_raise.
  - intros c. destruct (negb _); [by apply keeps_raise|].
    apply keeps_with_session, (keeps_bind _ R_trans); [by apply keeps_read_store|].
    intros records. apply (keeps_bind _ R_trans); [|intros; apply R_print].
    apply (keeps_for_each _ R_refl R_trans). intros record _.
    apply (keeps_bind _ R_trans); [apply R_emit_save|]. intros _. apply R_save.
Qed.

Hypothesis R_call :
  ∀ ver f,
    get_update_existing_func (VersionUpgradeConfig_init CONFIG_v7_3) ver = Some f →
    keeps R (emit (EvCall (fn_name f))) ∧ keeps R (lift_store (fn_run f)).

Lemma keeps_upgrade_steps_in lifecycle upgrade_configs f versions :
  keeps R (for_each versions
             (upgrade_step_in lifecycle (VersionUpgradeConfig_init CONFIG_v7_3)
                upgrade_configs f)).
Proof.
  apply (keeps_for_each _ R_refl R_trans). intros v _. unfold upgrade_step_in.
  destruct (dict_get v upgrade_configs) as [uc|]; [|by apply keeps_raise].
  apply (keeps_bind _ R_trans).
  - destruct (cfg_resave_records uc); [|by apply keeps_ret].
    apply (keeps_for_each _ R_refl R_trans).
    intros; apply keeps_resave_record_path_in.
  - intros _. destruct (cfg_update_existing_records uc); [|by apply keeps_ret].
    destruct (get_update_existing_func _ _) as [g|] eqn:Hg; [|by apply keeps_raise].
    destruct (R_call _ _ Hg). apply (keeps_bind _ R_trans); [done|]. by intros _.
Qed.

End Lifecycle.

(** ** What the command raises *)

Section Errors.

Import Storage Upgrade.

Context `{W : World}.

Implicit Types (st : State) (settings : Settings).

Lemma raises_only_ret P {A} (a : A) : raises_only P (mret a).
Proof. intros st e st' [=]. Qed.

Lemma raises_only_raise (P : Py.Exc → Prop) {A} c msg :
  P (Py.mkExc c msg) → raises_only P (raise (A := A) c msg).
Proof. by intros HP st e st' [= <- <-]. Qed.

Lemma raises_only_emit P ev : raises_only P (emit ev).
Proof. intros st e st' [=]. Qed.

Lemma raises_only_read_store (P : Py.Exc → Prop) {A}
    (f : gmap string Row → Py.Exc + A) :
  (∀ s e, f s = inl e → P e) → raises_only P (read_store f).
Proof. intros Hf st e st' [= He <-]. by eapply Hf. Qed.

Lemma raises_only_lift_store (P : Py.Exc → Prop) {A} (op : StoreOp A) :
  (∀ s e, (op s).1 = inl e → P e) → raises_only P (lift_store op).
Proof.
  intros Hop st e st'. unfold lift_store.
  specialize (Hop (storage st)). destruct (op (storage st)) as [r s'].
  intros [= -> <-]. by apply Hop.
Qed.

Lemma raises_only_bind P {A B} (m : M A) (k : A → M B) :
  raises_only P m → (∀ a, raises_only P (k a)) → raises_only P (m ≫= k).
Proof.
  intros Hm Hk st e st'. unfold mbind, M_bind.
  destruct (m st) as [[e1|a] st1] eqn:Hrun.
  - intros [= <- <-]. by eapply Hm.
  - apply Hk.
Qed.

Lemma raises_only_for_each P {A} (l : list A) (body : A → M unit) :
  (∀ x, x ∈ l → raises_only P (body x)) → raises_only P (for_each l body).
Proof.
  induction l as [|x l IH]; intros Hbody; cbn [for_each].
  - apply raises_only_ret.
  - apply raises_only_bind; [apply Hbody; left|].
    intros _. apply IH. intros y Hy. apply Hbody. by right.
Qed.

(** What the storage of the model raises is a [BaseError]. *)
Lemma find_record_error type_filter (s : gmap string Row) e :
  find_record type_filter s = inl e → Py.is_BaseError (Py.exc_class e) = true.
Proof.
  unfold find_record.
  destruct (map_to_list _) as [|[id row] [|? ?]]; intros [= <-]; done.
Qed.

Lemma update_storage_version_raises vrec to_version st e st' :
  update_storage_version vrec to_version st = (inl e, st') →
  Py.is_BaseError (Py.exc_class e) = true ∧ storage st' = storage st.
Proof.
  unfold update_storage_version, lift_store, add_record, update_record.
  destruct vrec as [r|]; cbn [sr_id].
  - destruct (storage st !! sr_id r); intros [= <- <-]; done.
  - destruct (storage st !! new_record_id); intros [= <- <-]; done.
Qed.

Lemma resolve_raises_agent_error settings :
  raises_only is_agent_error (resolve_from_version settings).
Proof.
  intros st e st' Hrun.
  destruct (find_record RECORD_TYPE_ACAPY_VERSION (storage st)) as [e0|r] eqn:Hfind.
  - destruct (decide (Py.exc_class e0 = Py.StorageNotFoundError)) as [Hc|Hc].
    + destruct (setting_from_version settings) as [v|] eqn:Hset.
      * by rewrite (resolve_not_found_setting _ _ _ _ Hfind Hc Hset) in Hrun.
      * rewrite (resolve_not_found_no_setting _ _ _ Hfind Hc Hset) in Hrun.
        by injection Hrun as <- <-.
    + rewrite (resolve_other_error _ _ _ Hfind Hc) in Hrun.
      injection Hrun as <- <-. by eapply find_record_error.
  - destruct (resolve_found settings st r Hfind) as (st1 & Hr & _). congruence.
Qed.

Hypothesis load_class_agent_error :
  ∀ record_path e, load_class record_path = inl e → is_agent_error e.
Hypothesis query_agent_error :
  ∀ c s e, issubclass_BaseRecord c = true → query c s = inl e → is_agent_error e.
Hypothesis save_agent_error :
  ∀ record s e, (save record s).1 = inl e → is_agent_error e.

Lemma raises_only_step (P : Py.Exc → Prop) outcome :
  (∀ e, outcome = Some e → P e) → raises_only P (step outcome).
Proof. intros HP st e st'. rewrite step_run. destruct outcome; intros [= <- <-]. auto. Qed.

Lemma raises_only_with_session {A} session (body : M A) :
  session_agent_errors session →
  raises_only is_agent_error body →
  raises_only is_agent_error (with_session session body).
Proof.
  intros Hsession Hbody st e st'. rewrite with_session_run.
  destruct (session_enter session) as [e1|] eqn:Henter.
  { intros [= <- <-]. apply Hsession. auto. }
  destruct (session_exit session) as [e1|] eqn:Hexit.
  { intros [= <- <-]. apply Hsession. auto. }
  apply Hbody.
Qed.

Lemma resolve_in_raises_agent_error session settings :
  session_agent_errors session →
  raises_only is_agent_error (resolve_from_version_in session settings).
Proof.
  intros Hsession. apply raises_only_with_session; [done|].
  apply raises_only_bind; [|intros _; apply resolve_raises_agent_error].
  apply raises_only_step. intros e He. apply Hsession. auto.
Qed.

Lemma resave_in_raises_agent_error session record_path :
  session_agent_errors session →
  raises_only is_agent_error (resave_record_path_in session record_path).
Proof.
  intros Hsession. unfold resave_record_path_in. apply raises_only_bind.
  - intros st e st'. unfold try_except, lift_exc.
    destruct (load_class record_path) as [e0|c] eqn:Hload; [|done].
    destruct (isinstance _ e0); intros [= <- <-]; [done|].
    by eapply load_class_agent_error.
  - intros c. destruct (issubclass_BaseRecord c) eqn:Hc; cbn [negb];
      [|by apply raises_only_raise].
    apply raises_only_with_session; [done|].
    apply raises_only_bind.
    { apply raises_only_read_store. intros s e. by apply query_agent_error. }
    intros records. apply raises_only_bind; [|intros; apply raises_only_emit].
    apply raises_only_for_each. intros record _.
    apply raises_only_bind; [apply raises_only_emit|]. intros _.
    apply raises_only_lift_store, save_agent_error.
Qed.

Lemma upgrade_step_in_raises_agent_error lifecycle upgrade_configs f v :
  (∀ v i, session_agent_errors (resave_session lifecycle v i)) →
  v ∈ upgrade_configs.*1 →
  raises_only is_agent_error
    (upgrade_step_in lifecycle (VersionUpgradeConfig_init CONFIG_v7_3)
       upgrade_configs f v).
Proof.
  intros Hsessions Hv. unfold upgrade_step_in.
  destruct (proj1 (dict_get_elem_of v upgrade_configs) Hv) as [uc ->].
  apply raises_only_bind.
  - destruct (cfg_resave_records uc); [|apply raises_only_ret].
    apply raises_only_for_each. intros; by apply resave_in_raises_agent_error.
  - intros _. destruct (cfg_update_existing_records uc); [|apply raises_only_ret].
    destruct (get_update_existing_func _ _) as [g|] eqn:Hg;
      [|by apply raises_only_raise].
    destruct (get_update_existing_func_init _ _ _ Hg) as (entry & Hentry & Hfn).
    unfold CONFIG_v7_3 in Hentry. apply lookup_singleton_Some in Hentry as [_ <-].
    injection Hfn as <-.
    apply raises_only_bind; [apply raises_only_emit|]. intros _.
    apply raises_only_lift_store. by intros s e [=].
Qed.

Lemma upgrade_coroutine_body_raises_agent_error lifecycle settings upgrade_configs :
  lifecycle_agent_errors lifecycle →
  setting_config settings = Some upgrade_configs →
  (∀ v, v ∈ upgrade_configs.*1 → ∃ k, version_key v = inr k) →
  raises_only is_agent_error (upgrade_coroutine_body lifecycle CONFIG_v7_3 settings).
Proof.
  intros (Hwallet & Hlookup & Hresave & Hwrite & Hclose) Hconfig Hkeys.
  unfold upgrade_coroutine_body.
  apply raises_only_bind; [by apply raises_only_lift_store|]. intros _.
  apply raises_only_bind; [by apply resolve_in_raises_agent_error|].
  intros [vrec f]. cbn [fst snd].
  apply raises_only_bind; [|intros _; by apply raises_only_step].
  unfold upgrade_from_in. rewrite Hconfig.
  destruct (decide _); [by apply raises_only_raise|].
  destruct (dict_contains f upgrade_configs) eqn:Hf; cbn [negb];
    [|by apply raises_only_raise].
  apply dict_contains_elem_of in Hf.
  destruct (versions_to_process_returns _ _ Hkeys Hf) as [versions Hv].
  rewrite Hv. intros st0 e0 st0'. unfold mbind at 1, M_bind at 1, lift_exc.
  revert st0 e0 st0'.
  apply raises_only_bind.
  - apply raises_only_for_each. intros v Hin.
    apply upgrade_step_in_raises_agent_error; [done|].
    by apply (versions_to_process_configured _ _ _ Hv).
  - intros _. apply raises_only_with_session; [done|].
    apply raises_only_bind.
    + apply raises_only_step. intros e He. apply Hwrite. auto.
    + intros _ st e st' Hw. by apply update_storage_version_raises in Hw as [? _].
Qed.

(** The error surface of [upgrade].  Where the context is built, where
    [wallet_config], the sessions and [close] of the profile, the class
    loader, the queries of the record classes and the saves of the records
    raise nothing but subclasses of [BaseError], where ["upgrade.config"] is
    set and the versions it configures are well formed, whatever [upgrade]
    raises is an [UpgradeError]. *)
Theorem upgrade_raises_UpgradeError lifecycle settings st e st' upgrade_configs :
  build_context lifecycle = None →
  lifecycle_agent_errors lifecycle →
  setting_config settings = Some upgrade_configs →
  (∀ v, v ∈ upgrade_configs.*1 → ∃ k, version_key v = inr k) →
  upgrade_coroutine lifecycle settings st = (inl e, st') →
  Py.exc_class e = Py.UpgradeError.
Proof.
  intros Hbuild Hlifecycle Hconfig Hkeys Hrun.
  pose proof (upgrade_coroutine_body_raises_agent_error _ _ _
                Hlifecycle Hconfig Hkeys) as Hbody.
  unfold upgrade_coroutine, mbind, M_bind in Hrun.
  rewrite step_run, Hbuild in Hrun. unfold try_except in Hrun.
  destruct (upgrade_coroutine_body lifecycle CONFIG_v7_3 settings st)
    as [[e0|[]] st0] eqn:Hb; [|done].
  pose proof (Hbody _ _ _ Hb) as He0. unfold is_agent_error in He0.
  rewrite He0 in Hrun. by injection Hrun as <- <-.
Qed.

(** What building the context raises leaves [upgrade] as it is, whatever
    its class, and nothing else has happened. *)
Lemma upgrade_build_context_raises lifecycle settings st e :
  build_context lifecycle = Some e →
  upgrade_coroutine lifecycle settings st = (inl e, st).
Proof.
  intros Hbuild. unfold upgrade_coroutine, mbind, M_bind.
  by rewrite step_run, Hbuild.
Qed.

End Errors.

(** ** Failures before the first step *)

Section EarlyFailures.

Import Storage Upgrade.

Context `{W : World}.

Implicit Types (st : State) (settings : Settings).

(** Among configured versions written in ASCII, a version that is not well
    formed: the sort raises the [ValueError] or [IndexError] of the first
    such version, which is not a [BaseError] and leaves [upgrade] as it is,
    before any step: the store is the one before the call. *)
Theorem upgrade_malformed_version_key settings st vrec f st1 upgrade_configs v e0 :
  resolve_from_version settings st = (inr (vrec, f), st1) →
  f ≠ "v" +:+ version →
  setting_config settings = Some upgrade_configs →
  dict_contains f upgrade_configs = true →
  Forall (λ configured, Py.is_ascii configured = true) upgrade_configs.*1 →
  v ∈ upgrade_configs.*1 →
  version_key v = inl e0 →
  ∃ e, upgrade settings st = (inl e, st1)
       ∧ (Py.exc_class e = Py.ValueError ∨ Py.exc_class e = Py.IndexError)
       ∧ only_printed st st1.
Proof.
  intros Hres Hne Hconfig Hin _ Hv He0.
  destruct (exc_map_inl version_key upgrade_configs.*1) as (x & e & _ & Hx & Hmap);
    [eauto|].
  pose proof (version_key_error _ _ Hx) as Hclass.
  exists e. split; [|split; [done|]].
  - unfold upgrade, upgrade_with, try_except, upgrade_body, mbind, M_bind.
    rewrite Hres. cbn [fst snd]. unfold upgrade_from.
    rewrite decide_False by done. rewrite Hconfig, Hin. cbn [negb].
    unfold lift_exc, versions_to_process, sorted_versions. rewrite Hmap.
    unfold mbind, M_bind. cbn [exc_bind]. by destruct Hclass as [-> | ->].
  - by destruct (resolve_inv _ _ _ _ Hres) as [? _].
Qed.

(** A failure of the lookup of the version record other than "not found"
    is not answered with the setting ["upgrade.from_version"]: [upgrade]
    raises [UpgradeError] with the message of the failure, in the state it
    was called in. *)
Theorem upgrade_lookup_failure settings st e :
  find_record RECORD_TYPE_ACAPY_VERSION (storage st) = inl e →
  Py.exc_class e ≠ Py.StorageNotFoundError →
  upgrade settings st
  = (inl (Py.mkExc Py.UpgradeError ("Error during upgrade: " +:+ Py.exc_msg e)), st).
Proof.
  intros Hfind Hclass.
  unfold upgrade, upgrade_with, try_except, upgrade_body, mbind, M_bind.
  rewrite (resolve_other_error _ _ _ Hfind Hclass).
  by rewrite (find_record_error _ _ _ Hfind).
Qed.

End EarlyFailures.

(** ** The stored version over failed and repeated runs *)

Section Reruns.

Import Storage Upgrade.

Context `{W : World}.

Implicit Types (st : State) (settings : Settings).

Lemma upgrade_steps_same_version_records upgrade_configs f versions st :
  (∀ record, preserves_version_records (save record)) →
  same_version_records st
    (for_each versions
       (upgrade_step (VersionUpgradeConfig_init CONFIG_v7_3) upgrade_configs f) st).2.
Proof.
  intros Hsave.
  apply (keeps_upgrade_steps same_version_records
           ltac:(done)
           ltac:(unfold same_version_records; congruence)
           (λ text, same_version_records_emit (EvPrint text))
           (λ record, same_version_records_lift_store _ (Hsave record))
           (λ c record _, same_version_records_emit (EvSave c record))
           CONFIG_v7_3).
  intros ver g Hg.
  destruct (get_update_existing_func_init _ _ _ Hg) as (entry & Hentry & Hfn).
  unfold CONFIG_v7_3 in Hentry. apply lookup_singleton_Some in Hentry as [_ <-].
  injection Hfn as <-.
  split; [apply same_version_records_emit|].
  apply same_version_records_lift_store. by intros s.
Qed.

Lemma find_record_of_type type_filter (s s' : gmap string Row) :
  of_type type_filter s' = of_type type_filter s →
  find_record type_filter s' = find_record type_filter s.
Proof. unfold find_record. by intros ->. Qed.

Lemma same_version_records_trans st1 st2 st3 :
  same_version_records st1 st2 → same_version_records st2 st3 →
  same_version_records st1 st3.
Proof. unfold same_version_records. congruence. Qed.

Lemma upgrade_steps_in_same_version_records lifecycle upgrade_configs f versions :
  (∀ record, preserves_version_records (save record)) →
  keeps same_version_records
    (for_each versions
       (upgrade_step_in lifecycle (VersionUpgradeConfig_init CONFIG_v7_3)
          upgrade_configs f)).
Proof.
  intros Hsave.
  apply (keeps_upgrade_steps_in same_version_records
           ltac:(done) same_version_records_trans
           (λ text, same_version_records_emit (EvPrint text))
           (λ record, same_version_records_lift_store _ (Hsave record))
           (λ c record, same_version_records_emit (EvSave c record))).
  intros ver g Hg.
  destruct (get_update_existing_func_init _ _ _ Hg) as (entry & Hentry & Hfn).
  unfold CONFIG_v7_3 in Hentry. apply lookup_singleton_Some in Hentry as [_ <-].
  injection Hfn as <-.
  split; [apply same_version_records_emit|].
  apply same_version_records_lift_store. by intros s.
Qed.

(** Lines 88-163 raise before the marker is written, where leaving the
    session of the write does not raise. *)
Lemma upgrade_from_in_raises lifecycle settings vrec f st e st' :
  (∀ record, preserves_version_records (save record)) →
  session_exit (write_session lifecycle) = None →
  upgrade_from_in lifecycle (VersionUpgradeConfig_init CONFIG_v7_3) settings vrec f st
  = (inl e, st') →
  same_version_records st st'.
Proof.
  intros Hsave Hexit Hb. unfold upgrade_from_in in Hb.
  destruct (decide _); [by injection Hb as _ <-|].
  destruct (setting_config settings) as [c|]; [|by injection Hb as _ <-].
  destruct (negb _); [by injection Hb as _ <-|].
  apply bind_raises in Hb as [Hb|(versions & st1 & Hv & Hb)];
    [by injection Hb as _ <-|].
  injection Hv as _ <-.
  pose proof (upgrade_steps_in_same_version_records lifecycle c f versions Hsave st)
    as Hloop.
  apply bind_raises in Hb as [Hb|([] & st2 & Hrun & Hb)].
  { by rewrite Hb in Hloop. }
  rewrite Hrun in Hloop. cbn [snd] in Hloop.
  eapply same_version_records_trans; [exact Hloop|].
  rewrite with_session_run, Hexit in Hb.
  destruct (session_enter (write_session lifecycle)); [by injection Hb as _ <-|].
  apply bind_raises in Hb as [Hb|([] & st3 & Hinject & Hb)].
  { rewrite step_run in Hb. by injection Hb as _ <-. }
  rewrite step_run in Hinject. injection Hinject as _ <-.
  apply update_storage_version_raises in Hb as [_ Hs].
  unfold same_version_records. by rewrite Hs.
Qed.

(** The stored version changes with the last write of a run only: after a
    run of [upgrade] that raises, the lookup of the version record gives
    what it gave before the run, where [wallet_config] and saving a record
    leave the records of the version type alone, and where leaving the
    session of the write and closing the profile do not raise. *)
Theorem failed_upgrade_keeps_stored_version lifecycle settings st e st' :
  (∀ record, preserves_version_records (save record)) →
  preserves_version_records (wallet_config lifecycle) →
  session_exit (write_session lifecycle) = None →
  close lifecycle = None →
  upgrade_coroutine lifecycle settings st = (inl e, st') →
  find_record RECORD_TYPE_ACAPY_VERSION (storage st')
  = find_record RECORD_TYPE_ACAPY_VERSION (storage st).
Proof.
  intros Hsave Hwallet Hexit Hclose Hrun. apply find_record_of_type.
  change (same_version_records st st').
  assert (Hbody : ∀ e0 st0,
    upgrade_coroutine_body lifecycle CONFIG_v7_3 settings st = (inl e0, st0) →
    same_version_records st st0).
  { intros e0 st0 Hb. unfold upgrade_coroutine_body in Hb.
    pose proof (same_version_records_lift_store _ Hwallet st) as Hw.
    apply bind_raises in Hb as [Hb|([] & st1 & Hopen & Hb)];
      [by rewrite Hb in Hw|].
    rewrite Hopen in Hw. cbn [snd] in Hw.
    eapply same_version_records_trans; [exact Hw|].
    pose proof (keeps_resolve_in same_version_records ltac:(done)
                  same_version_records_trans
                  (λ text, same_version_records_emit (EvPrint text))
                  (lookup_session lifecycle) settings st1) as Hres.
    apply bind_raises in Hb as [Hb|([vrec f] & st2 & Hlookup & Hb)];
      [by rewrite Hb in Hres|].
    rewrite Hlookup in Hres. cbn [fst snd] in Hres, Hb.
    eapply same_version_records_trans; [exact Hres|].
    apply bind_raises in Hb as [Hb|([] & st3 & _ & Hb)].
    - by eapply upgrade_from_in_raises.
    - by rewrite step_run, Hclose in Hb. }
  unfold upgrade_coroutine in Hrun.
  apply bind_raises in Hrun as [Hrun|([] & st1 & Hbuild & Hrun)].
  { rewrite step_run in Hrun. by injection Hrun as _ <-. }
  rewrite step_run in Hbuild. injection Hbuild as _ <-.
  unfold try_except in Hrun.
  destruct (upgrade_coroutine_body lifecycle CONFIG_v7_3 settings st)
    as [[e0|[]] st0] eqn:Hb; [|done].
  specialize (Hbody e0 st0 eq_refl).
  destruct (Py.is_BaseError _); by injection Hrun as <- <-.
Qed.

(** The marker is written before the profile is closed: when closing
    raises an error of the agent, [upgrade] raises [UpgradeError] in the
    state in which the run in which closing returns has ended. *)
Theorem upgrade_close_raises lifecycle settings st st' e :
  upgrade_coroutine (closing lifecycle None) settings st = (inr (), st') →
  is_agent_error e →
  upgrade_coroutine (closing lifecycle (Some e)) settings st
  = (inl (Py.mkExc Py.UpgradeError ("Error during upgrade: " +:+ Py.exc_msg e)), st').
Proof.
  intros Hrun He. unfold upgrade_coroutine in Hrun.
  apply bind_returns in Hrun as ([] & st0 & Hbuild & Hrun).
  unfold try_except in Hrun.
  destruct (upgrade_coroutine_body (closing lifecycle None) CONFIG_v7_3 settings st0)
    as [[e0|[]] st1] eqn:Hbody; [by destruct (Py.is_BaseError _)|].
  injection Hrun as <-. unfold upgrade_coroutine_body in Hbody.
  apply bind_returns in Hbody as ([] & st2 & Hopen & Hbody).
  apply bind_returns in Hbody as ([vrec f] & st3 & Hlookup & Hbody).
  apply bind_returns in Hbody as ([] & st4 & Hfrom & Hclose).
  injection Hclose as <-.
  unfold upgrade_coroutine. rewrite (bind_run _ _ _ _ _ Hbuild).
  assert (upgrade_coroutine_body (closing lifecycle (Some e)) CONFIG_v7_3 settings st0
          = (inl e, st4)) as Hraise.
  { unfold upgrade_coroutine_body.
    rewrite (bind_run _ _ _ _ _ Hopen), (bind_run _ _ _ _ _ Hlookup).
    by rewrite (bind_run _ _ _ () st4 Hfrom). }
  unfold try_except. rewrite Hraise. unfold is_agent_error in He. by rewrite He.
Qed.

(** After a run of [upgrade] that returns, the next run, with whatever
    settings, raises [UpgradeError] because the stored version is the
    running one, and does nothing but print, where saving a record leaves
    the records of the version type alone. *)
Theorem upgrade_again_is_rejected settings settings' st st' :
  (∀ record, preserves_version_records (save record)) →
  upgrade settings st = (inr (), st') →
  ∃ st'',
    upgrade settings' st'
    = (inl (Py.mkExc Py.UpgradeError
              ("Error during upgrade: Version " +:+ ("v" +:+ version)
               +:+ " to upgrade from and current version to upgrade to "
               +:+ ("v" +:+ version) +:+ " are same.")), st'')
    ∧ only_printed st' st''.
Proof.
  intros Hsave Hrun.
  destruct (stored_version_after_upgrade_with CONFIG_v7_3 settings st st')
    as (id & Hfind & _); try done.
  { intros ver entry g Hentry Hfn. unfold CONFIG_v7_3 in Hentry.
    apply lookup_singleton_Some in Hentry as [_ <-]. injection Hfn as <-.
    by intros s. }
  destruct (resolve_found settings' st' _ Hfind) as (st'' & Hres & Hp).
  exists st''. split; [|done].
  unfold upgrade, upgrade_with, try_except, upgrade_body, mbind, M_bind.
  rewrite Hres. cbn [fst snd sr_value]. unfold upgrade_from.
  by rewrite decide_True.
Qed.

End Reruns.

(** ** Re-saving the records of a class *)

Section ResaveAll.

Import Storage Upgrade.

Context `{W : World}.

Implicit Types (st : State) (records : list RecordObj).

Lemma for_each_app {A} (l1 l2 : list A) (body : A → M unit) st :
  for_each (l1 ++ l2) body st
  = match for_each l1 body st with
    | (inr _, st1) => for_each l2 body st1
    | (inl e, st1) => (inl e, st1)
    end.
Proof.
  revert st. induction l1 as [|x l1 IH]; intros st; [done|].
  cbn [app for_each]. unfold mbind, M_bind.
  destruct (body x st) as [[e|[]] st1]; [done|]. apply IH.
Qed.

(** The loop over the records of a class, where every save returns. *)
Lemma save_loop_returns c records st :
  (∀ record s, record ∈ records → (save record s).1 = inr ()) →
  for_each records
    (λ record, emit (EvSave c record);; lift_store (save record)) st
  = (inr (),
     mkState (save_all records (storage st))
       (trace st ++ (EvSave c <$> records))%list).
Proof.
  revert st. induction records as [|record records IH]; intros st Hsave.
  - cbn. rewrite app_nil_r. by destruct st.
  - cbn [for_each]. unfold mbind at 1, M_bind at 1.
    unfold mbind at 1, M_bind at 1, emit, lift_store. cbn [storage trace].
    pose proof (Hsave record (storage st) ltac:(left)) as Hone.
    destruct (save record (storage st)) as [r s'] eqn:Hrun. cbn in Hone. subst r.
    rewrite IH by (intros r s Hr; apply Hsave; by right).
    cbn [storage trace fmap list_fmap]. unfold save_all. cbn [foldl].
    rewrite Hrun. cbn [snd]. by rewrite <- app_assoc.
Qed.

(** A record path that names a record class: every record the query
    returns is saved, in the order of the query and each on the store the
    one before left, where the saves return; then one line is printed. *)
Theorem resave_record_path_saves_all record_path st c records :
  load_class record_path = inr c →
  issubclass_BaseRecord c = true →
  query c (storage st) = inr records →
  (∀ record s, record ∈ records → (save record s).1 = inr ()) →
  resave_record_path record_path st
  = (inr (),
     mkState (save_all records (storage st))
       (trace st ++ (EvSave c <$> records)
        ++ [EvPrint ("All records of " +:+ class_str c
                     +:+ " successfully re-saved.")])%list).
Proof.
  intros Hload Hsub Hquery Hsave.
  unfold resave_record_path, mbind at 1, M_bind at 1, try_except, lift_exc.
  rewrite Hload, Hsub. cbn [negb].
  unfold mbind at 1, M_bind at 1, read_store. rewrite Hquery.
  unfold mbind at 1, M_bind at 1. rewrite (save_loop_returns c records st Hsave).
  unfold print, emit. cbn [storage trace]. by rewrite <- app_assoc.
Qed.

(** The first save that raises ends the re-save: the records after it are
    not saved, no line is printed, and the exception of the save is the one
    raised. *)
Theorem resave_record_path_stops record_path st c before record after e :
  load_class record_path = inr c →
  issubclass_BaseRecord c = true →
  query c (storage st) = inr (before ++ record :: after)%list →
  (∀ r s, r ∈ before → (save r s).1 = inr ()) →
  (save record (save_all before (storage st))).1 = inl e →
  resave_record_path record_path st
  = (inl e,
     mkState (save record (save_all before (storage st))).2
       (trace st ++ (EvSave c <$> before ++ [record]))%list).
Proof.
  intros Hload Hsub Hquery Hsave Hfail.
  unfold resave_record_path, mbind at 1, M_bind at 1, try_except, lift_exc.
  rewrite Hload, Hsub. cbn [negb].
  unfold mbind at 1, M_bind at 1, read_store. rewrite Hquery.
  unfold mbind at 1, M_bind at 1.
  rewrite for_each_app, (save_loop_returns c before st Hsave).
  cbn [for_each]. unfold mbind at 1, M_bind at 1.
  unfold mbind at 1, M_bind at 1, emit, lift_store. cbn [storage trace].
  destruct (save record (save_all before (storage st))) as [r s'].
  cbn in Hfail. subst r. cbn [snd].
  by rewrite fmap_app, <- app_assoc.
Qed.

End ResaveAll.

(** ** Calls of the registered callables *)

Section Calls.

Import Storage Upgrade.

Context `{W : World}.

Implicit Types (st : State) (settings : Settings).

Lemma no_new_calls_refl st : no_new_calls st st.
Proof. by intros fn. Qed.

Lemma no_new_calls_trans st1 st2 st3 :
  no_new_calls st1 st2 → no_new_calls st2 st3 → no_new_calls st1 st3.
Proof. intros H12 H23 fn Hin. by apply H12, H23. Qed.

Lemma no_new_calls_lift_store {A} (op : StoreOp A) :
  keeps no_new_calls (lift_store op).
Proof.
  intros st fn. unfold lift_store. by destruct (op (storage st)).
Qed.

Lemma no_new_calls_emit ev :
  (∀ fn, ev ≠ EvCall fn) → keeps no_new_calls (emit ev).
Proof.
  intros Hev st fn. cbn. rewrite elem_of_app, list_elem_of_singleton.
  intros [?|Heq]; [done|]. by destruct (Hev fn).
Qed.

Lemma dict_get_Some_elem_of {V} k (d : list (string * V)) v :
  dict_get k d = Some v → (k, v) ∈ d.
Proof.
  induction d as [|[k' v'] d IH]; cbn; [done|].
  destruct (decide (k' = k)) as [->|Hne].
  - intros [= ->]. left.
  - intros Hget. right. by apply IH.
Qed.

(** No callable is called where no configured version asks for its existing
    records to be updated: the key ["update_existing_records"] is what
    triggers the call. *)
Theorem no_callable_unless_asked settings st :
  (∀ upgrade_configs v upgrade_config,
     setting_config settings = Some upgrade_configs →
     (v, upgrade_config) ∈ upgrade_configs →
     cfg_update_existing_records upgrade_config = None) →
  ∀ fn, EvCall fn ∈ trace (upgrade settings st).2 → EvCall fn ∈ trace st.
Proof.
  intros Hnone.
  change (no_new_calls st (upgrade settings st).2). revert st.
  change (keeps no_new_calls (upgrade settings)).
  pose proof no_new_calls_refl as Hrefl. pose proof no_new_calls_trans as Htrans.
  assert (Hprint : ∀ text, keeps no_new_calls (print text)).
  { intros text. by apply no_new_calls_emit. }
  assert (Hsave : ∀ record, keeps no_new_calls (lift_store (save record))).
  { intros record. apply no_new_calls_lift_store. }
  assert (Hemit : ∀ c record, issubclass_BaseRecord c = true →
                   keeps no_new_calls (emit (EvSave c record))).
  { intros c record _. by apply no_new_calls_emit. }
  unfold upgrade, upgrade_with.
  apply (keeps_try_except _ Htrans); [|intros; by apply keeps_raise].
  unfold upgrade_body. apply (keeps_bind _ Htrans); [by apply keeps_resolve|].
  intros [vrec f]. cbn [fst snd]. unfold upgrade_from.
  destruct (decide _); [by apply keeps_raise|].
  destruct (setting_config settings) as [c|] eqn:Hc; [|by apply keeps_raise].
  destruct (negb _); [by apply keeps_raise|].
  apply (keeps_bind _ Htrans); [by apply keeps_lift_exc|]. intros versions.
  apply (keeps_bind _ Htrans).
  - apply (keeps_for_each _ Hrefl Htrans). intros v _. unfold upgrade_step.
    destruct (dict_get v c) as [uc|] eqn:Huc; [|by apply keeps_raise].
    rewrite (Hnone c v uc eq_refl (dict_get_Some_elem_of _ _ _ Huc)).
    apply (keeps_bind _ Htrans); [|intros; by apply keeps_ret].
    destruct (cfg_resave_records uc); [|by apply keeps_ret].
    apply (keeps_for_each _ Hrefl Htrans). intros p _.
    by apply keeps_resave_record_path.
  - intros _. destruct vrec; apply no_new_calls_lift_store.
Qed.

End Calls.

(** ** More runs of the command *)

Section MoreRuns.

Import Storage Upgrade UpgradeDemo.

(** From v0.7.1 over the three versions. *)
Lemma versions_to_process_ascending_witness :
  ∃ keyed : list ((Z * Z * Z) * string),
    ["v0.7.0"; "v0.7.1"; "v0.7.2"] = keyed.*2
    ∧ StronglySorted Py.key_le keyed
    ∧ Forall (λ kv, version_key kv.2 = inr kv.1) keyed
    ∧ ["v0.7.0"; "v0.7.1"; "v0.7.2"] ⊆ three_versions.*1.
Proof.
  apply (versions_to_process_ascending three_versions "v0.7.1").
  vm_compute. reflexivity.
Defined.

(** The version 0.10.0: the numerals are read as numbers. *)
Lemma version_key_well_formed_witness : version_key "v0.10.0" = inr (0, 10, 0).
Proof.
  apply (version_key_well_formed "v" "0" "10" "0"); [done|..];
    (split; [done|reflexivity]).
Defined.

Lemma versions_to_process_single_witness :
  versions_to_process [("v0.7.2", mkUpgradeConfig None None)] "v0.7.2"
  = inr ["v0.7.2"].
Proof.
  apply (versions_to_process_single "v0.7.2" (mkUpgradeConfig None None) (0, 7, 2)).
  reflexivity.
Defined.

(** The version v0.7 has no third component. *)
Lemma upgrade_malformed_version_key_witness :
  ∃ e, upgrade (W := world_0_7_3) (mkSettings None (Some malformed_versions))
         (demo_state "0.7.3" (Some "v0.7.0"))
       = (inl e, demo_state "0.7.3" (Some "v0.7.0"))
       ∧ (Py.exc_class e = Py.ValueError ∨ Py.exc_class e = Py.IndexError)
       ∧ only_printed (demo_state "0.7.3" (Some "v0.7.0"))
           (demo_state "0.7.3" (Some "v0.7.0")).
Proof.
  apply (upgrade_malformed_version_key (W := world_0_7_3)
           (mkSettings None (Some malformed_versions))
           (demo_state "0.7.3" (Some "v0.7.0")) (Some stored_0_7_0) "v0.7.0"
           (demo_state "0.7.3" (Some "v0.7.0")) malformed_versions "v0.7"
           (Py.mkExc Py.IndexError "list index out of range")).
  - vm_compute. reflexivity.
  - discriminate.
  - reflexivity.
  - vm_compute. reflexivity.
  - repeat constructor.
  - right. left.
  - reflexivity.
Defined.

(** Two version records in the store, and a setting that names a version. *)
Lemma upgrade_lookup_failure_witness :
  upgrade (W := world_0_7_3) (settings_three_from "v0.7.0")
    (mkState (W := world_0_7_3) two_markers [])
  = (inl (Py.mkExc Py.UpgradeError
            "Error during upgrade: Duplicate records found"),
     mkState (W := world_0_7_3) two_markers []).
Proof.
  apply (upgrade_lookup_failure (W := world_0_7_3) (settings_three_from "v0.7.0")
           (mkState (W := world_0_7_3) two_markers [])
           (Py.mkExc Py.StorageDuplicateError "Duplicate records found")).
  - vm_compute. reflexivity.
  - discriminate.
Defined.

Lemma demo_load_class_agent_error record_path e :
  demo_load_class record_path = inl e → is_agent_error e.
Proof.
  unfold demo_load_class. repeat case_decide; intros [= <-]; done.
Qed.

Lemma demo_query_agent_error c s e :
  bool_decide (is_Some (record_type_of c)) = true →
  demo_query c s = inl e → is_agent_error e.
Proof.
  intros [t Ht]%bool_decide_eq_true_1. unfold demo_query. by rewrite Ht.
Qed.

Lemma three_versions_well_formed v :
  v ∈ three_versions.*1 → ∃ k, version_key v = inr k.
Proof.
  cbn. intros Hv. repeat (apply elem_of_cons in Hv as [->|Hv]; [eexists; reflexivity|]).
  by apply elem_of_nil in Hv.
Qed.

(** The wallet does not open: the error is an [UpgradeError]. *)
Lemma upgrade_raises_UpgradeError_witness :
  upgrade_coroutine (W := world_0_7_3) wallet_locked settings_three
    (demo_state "0.7.3" (Some "v0.7.0"))
  = (inl (Py.mkExc Py.UpgradeError "Error during upgrade: Wallet is locked"),
     demo_state "0.7.3" (Some "v0.7.0"))
  ∧ Py.exc_class
      (Py.mkExc Py.UpgradeError "Error during upgrade: Wallet is locked")
    = Py.UpgradeError.
Proof.
  split; [vm_compute; reflexivity|].
  apply (upgrade_raises_UpgradeError (W := world_0_7_3)
           demo_load_class_agent_error demo_query_agent_error
           ltac:(intros record s e [=])
           wallet_locked settings_three (demo_state "0.7.3" (Some "v0.7.0")) _
           (demo_state "0.7.3" (Some "v0.7.0")) three_versions).
  - reflexivity.
  - repeat split; try (intros ? [[=]|[[=]|[=]]]); try (intros ? ? ? [[=]|[[=]|[=]]]);
      try (intros ? [=]).
    intros s e [= <-]. reflexivity.
  - reflexivity.
  - apply three_versions_well_formed.
  - vm_compute. reflexivity.
Defined.

(** The connections are re-saved, then the session of the credential
    exchanges does not open: the stored version is still v0.7.0. *)
Lemma failed_upgrade_keeps_stored_version_witness :
  find_record "acapy_version"
    (storage (upgrade_coroutine (W := world_0_7_3) second_session_fails
                (mkSettings None (Some two_paths_version))
                (demo_state "0.7.3" (Some "v0.7.0"))).2)
  = find_record "acapy_version" (demo_store (Some "v0.7.0")).
Proof.
  apply (failed_upgrade_keeps_stored_version (W := world_0_7_3)
           second_session_fails (mkSettings None (Some two_paths_version))
           (demo_state "0.7.3" (Some "v0.7.0"))
           (Py.mkExc Py.UpgradeError "Error during upgrade: Session limit reached")).
  - intros record s. reflexivity.
  - intros s. reflexivity.
  - reflexivity.
  - reflexivity.
  - vm_compute. reflexivity.
Defined.

(** The run over the three versions, and closing the profile fails: the
    stored version is v0.7.3 already. *)
Lemma upgrade_close_raises_witness :
  upgrade_coroutine (W := world_0_7_3)
    (closing all_well (Some (Py.mkExc Py.BaseError "Profile is busy")))
    settings_three (demo_state "0.7.3" (Some "v0.7.0"))
  = (inl (Py.mkExc Py.UpgradeError "Error during upgrade: Profile is busy"),
     (upgrade (W := world_0_7_3) settings_three
        (demo_state "0.7.3" (Some "v0.7.0"))).2)
  ∧ sum_map id sr_value
      (find_record "acapy_version"
         (storage (upgrade (W := world_0_7_3) settings_three
                     (demo_state "0.7.3" (Some "v0.7.0"))).2))
    = inr "v0.7.3".
Proof.
  split; [|vm_compute; reflexivity].
  apply (upgrade_close_raises (W := world_0_7_3) all_well settings_three
           (demo_state "0.7.3" (Some "v0.7.0"))
           (upgrade (W := world_0_7_3) settings_three
              (demo_state "0.7.3" (Some "v0.7.0"))).2
           (Py.mkExc Py.BaseError "Profile is busy")).
  - vm_compute. reflexivity.
  - reflexivity.
Defined.

(** A second run after the run over the three versions. *)
Lemma upgrade_again_is_rejected_witness :
  ∃ st'',
    upgrade (W := world_0_7_3) settings_three
      (upgrade (W := world_0_7_3) settings_three
         (demo_state "0.7.3" (Some "v0.7.0"))).2
    = (inl (Py.mkExc Py.UpgradeError
              ("Error during upgrade: Version " +:+ ("v" +:+ "0.7.3")
               +:+ " to upgrade from and current version to upgrade to "
               +:+ ("v" +:+ "0.7.3") +:+ " are same.")), st'')
    ∧ only_printed
        (upgrade (W := world_0_7_3) settings_three
           (demo_state "0.7.3" (Some "v0.7.0"))).2 st''.
Proof.
  apply (upgrade_again_is_rejected (W := world_0_7_3) settings_three settings_three
           (demo_state "0.7.3" (Some "v0.7.0"))).
  - intros record s. reflexivity.
  - vm_compute. reflexivity.
Defined.

(** The one connection of the store is re-saved. *)
Lemma resave_record_path_saves_all_witness :
  resave_record_path (W := world_0_7_3) conn_path (demo_state "0.7.3" (Some "v0.7.0"))
  = (inr (),
     mkState (W := world_0_7_3) (demo_store (Some "v0.7.0"))
       [EvSave (W := world_0_7_3) "ConnRecord" "c1";
        EvPrint "All records of <class 'ConnRecord'> successfully re-saved."]).
Proof.
  apply (resave_record_path_saves_all (W := world_0_7_3) conn_path
           (demo_state "0.7.3" (Some "v0.7.0")) "ConnRecord" ["c1"]).
  - reflexivity.
  - reflexivity.
  - vm_compute. reflexivity.
  - intros record s _. reflexivity.
Defined.

(** The save of the second of three records fails: the first is saved, the
    third is not. *)
Lemma resave_record_path_stops_witness :
  resave_record_path (W := flaky_world) conn_path (mkState (W := flaky_world) ∅ [])
  = (inl (Py.mkExc Py.StorageError "Error when saving"),
     mkState (W := flaky_world) (<["c1" := mkRow "connection" "{}" ∅]> ∅)
       [EvSave (W := flaky_world) "ConnRecord" "c1";
        EvSave (W := flaky_world) "ConnRecord" "c2"]).
Proof.
  apply (resave_record_path_stops (W := flaky_world) conn_path
           (mkState (W := flaky_world) ∅ []) "ConnRecord" ["c1"] "c2" ["c3"]
           (Py.mkExc Py.StorageError "Error when saving")).
  - reflexivity.
  - reflexivity.
  - reflexivity.
  - intros r s Hr. apply list_elem_of_singleton in Hr as ->. reflexivity.
  - reflexivity.
Defined.

(** None of the three versions asks for its records to be updated. *)
Lemma no_callable_unless_asked_witness :
  Forall (λ ev, ev ≠ EvCall (W := world_0_7_3) "update_existing_records")
    (trace (upgrade (W := world_0_7_3) settings_three
              (demo_state "0.7.3" (Some "v0.7.0"))).2).
Proof.
  apply Forall_forall. intros ev Hev ->.
  apply (elem_of_nil (EvCall (W := world_0_7_3) "update_existing_records")).
  apply (no_callable_unless_asked (W := world_0_7_3) settings_three
           (demo_state "0.7.3" (Some "v0.7.0"))); [|exact Hev].
  intros c v uc [= <-] Hin. unfold three_versions in Hin.
  repeat (apply elem_of_cons in Hin as [[= -> ->]|Hin]; [reflexivity|]).
  by apply elem_of_nil in Hin.
Defined.

End MoreRuns.

(** ** Versions with the same key *)

Section Stability.

Import Upgrade.

Lemma tuple3_lt_irrefl a : Py.tuple3_lt a a = false.
Proof. apply tuple3_lt_false. lia. Qed.

Lemma insert_by_key_filter {A} (k : Z * Z * Z) (x : (Z * Z * Z) * A) l :
  filter (λ kv, kv.1 = k) (Py.insert_by_key x l) = filter (λ kv, kv.1 = k) (x :: l).
Proof.
  induction l as [|y l IH]; cbn [Py.insert_by_key]; [done|].
  destruct (Py.tuple3_lt y.1 x.1) eqn:Hlt; [|done].
  rewrite (filter_cons _ y), IH, !(filter_cons _ x), (filter_cons _ y).
  destruct (decide (x.1 = k)) as [Hx|Hx]; [|done].
  destruct (decide (y.1 = k)) as [Hy|Hy]; [|done].
  rewrite Hx, Hy, tuple3_lt_irrefl in Hlt. done.
Qed.

Lemma sort_by_key_filter {A} (k : Z * Z * Z) (l : list ((Z * Z * Z) * A)) :
  filter (λ kv, kv.1 = k) (Py.sort_by_key l) = filter (λ kv, kv.1 = k) l.
Proof.
  induction l as [|x l IH]; [done|].
  cbn [Py.sort_by_key foldr]. rewrite insert_by_key_filter.
  rewrite !(filter_cons _ x). fold (Py.sort_by_key l). by rewrite IH.
Qed.

Lemma filter_keyed (k : Z * Z * Z) (l : list ((Z * Z * Z) * string)) :
  Forall (λ kv, version_key kv.2 = inr kv.1) l →
  filter (λ v, version_key v = inr k) l.*2 = (filter (λ kv, kv.1 = k) l).*2.
Proof.
  induction 1 as [|[k' v] l Hkv _ IH]; [done|].
  cbn [fmap list_fmap snd]. rewrite !filter_cons. cbn [fst snd] in *.
  rewrite IH, Hkv.
  destruct (decide (k' = k)) as [->|Hne].
  - by rewrite decide_True.
  - by rewrite decide_False by congruence.
Qed.

(** The sort is stable: the versions that have a given key come out of it
    in the order in which they are configured. *)
Theorem sorted_versions_stable_order versions sorted k :
  sorted_versions versions = inr sorted →
  filter (λ v, version_key v = inr k) sorted
  = filter (λ v, version_key v = inr k) versions.
Proof.
  unfold sorted_versions.
  destruct (exc_map version_key versions) as [e|keys] eqn:Hkeys; cbn; [done|].
  intros [= <-]. apply exc_map_inr in Hkeys.
  assert (Hzip : Forall (λ kv, version_key kv.2 = inr kv.1) (zip keys versions)).
  { clear -Hkeys. induction Hkeys; cbn; constructor; eauto. }
  rewrite filter_keyed, sort_by_key_filter, <- filter_keyed by
    (try rewrite sort_by_key_perm; done).
  rewrite snd_zip; [done|]. by rewrite (Forall2_length _ _ _ Hkeys).
Qed.

(** The versions v0.07.2 and v0.7.2 have one key and keep their order. *)
Lemma sorted_versions_stable_order_witness :
  filter (λ v, version_key v = inr (0, 7, 2)) ["v0.7.1"; "v0.07.2"; "v0.7.2"]
  = filter (λ v, version_key v = inr (0, 7, 2)) ["v0.07.2"; "v0.7.1"; "v0.7.2"].
Proof.
  apply (sorted_versions_stable_order ["v0.07.2"; "v0.7.1"; "v0.7.2"]).
  reflexivity.
Defined.

End Stability.
